(** * CVT concept map visual editor: document model, gestures, persistence

    A shallow embedding of [cvt_concept_map_visual_editor.py].

    Conventions of the embedding.
    - Python objects with identity ([Node], [TextNode], [Arrow]) live in an
      arena: a reference is the index of the object in the arena, objects are
      updated in place with list insert and a new object is appended, so a
      reference stays valid after the object has left [nodes] or [arrows]
      (as in Python, where the remaining references keep it alive).  [is],
      [==] and [!=] on these objects compare references.
    - Python's numbers for coordinates and the zoom factor are idealised as
      exact rationals [Q]; rounding of binary floating point is outside the
      model.  [float('inf')] is the constructor [PosInf].
    - A font is represented by the metrics Qt yields for it
      ([horizontalAdvance], [height]); every node of a widget shares the
      widget's [node_font].
    - Calls that only touch the toolkit ([update], [setCursor], the line
      edit's geometry, text and visibility, painting, the SVG export) and
      [TextNode.bg_color] are left out; the text of the line edit reaches
      [finish_editing] as an argument.
    - Files are left out: [save_diagram] yields the value it passes to
      [json.dump], [load_diagram] takes the value [json.load] returns, the
      export yields the strings it writes.  The value has the keys and the
      value types the program writes.
    - A raised exception is the constructor [Raised], carrying the state of
      the widget at the moment of the raise. *)

From Stdlib Require Import QArith Qabs Lia Lqa.
From stdpp Require Import gmap strings list pretty.

Local Open Scope Z_scope.

(** ** Python and Qt primitives *)

Inductive exn := IndexError | KeyError | ValueError.

(** [l[i]] on a Python list: negative indices count from the end. *)
Definition py_getitem {A} (l : list A) (i : Z) : option A :=
  let n := Z.of_nat (length l) in
  if decide (0 <= i < n) then l !! Z.to_nat i
  else if decide (- n <= i < 0) then l !! Z.to_nat (n + i)
  else None.

(** [l.remove(v)]: drops the first occurrence, [None] is ValueError. *)
Fixpoint py_remove (v : nat) (l : list nat) : option (list nat) :=
  match l with
  | [] => None
  | u :: l' => if decide (u = v) then Some l'
               else match py_remove v l' with
                    | Some r => Some (u :: r)
                    | None => None
                    end
  end.

Definition Qltb (a b : Q) : bool := negb (Qle_bool b a).

Record QPointF := mkQPointF { px : Q; py : Q }.

Record QRectF := mkQRectF { rx : Q; ry : Q; rw : Q; rh : Q }.

(** Qt's [QRectF::contains(QPointF)]: edges included, a null rectangle
    contains nothing. *)
Definition QRectF_contains (r : QRectF) (p : QPointF) : bool :=
  let l := if Qltb (rw r) 0 then (rx r + rw r)%Q else rx r in
  let rr := if Qltb (rw r) 0 then rx r else (rx r + rw r)%Q in
  let t := if Qltb (rh r) 0 then (ry r + rh r)%Q else ry r in
  let b := if Qltb (rh r) 0 then ry r else (ry r + rh r)%Q in
  if Qeq_bool l rr then false
  else if Qltb (px p) l || Qltb rr (px p) then false
  else if Qeq_bool t b then false
  else if Qltb (py p) t || Qltb b (py p) then false
  else true.

Module QFontMetrics.
Record t := mk { horizontalAdvance : string -> Z; height : Z }.
End QFontMetrics.

(** A float that may be [float('inf')]. *)
Inductive xfloat := Fin (q : Q) | PosInf.

(** Python's [min(a, b)]: [b] when [b < a], else [a]. *)
Definition xmin (a b : xfloat) : xfloat :=
  match a, b with
  | Fin p, Fin q => if Qltb q p then Fin q else Fin p
  | Fin p, PosInf => Fin p
  | PosInf, Fin q => Fin q
  | PosInf, PosInf => PosInf
  end.

(** [math.hypot(a, b) < tol], decided on the squares. *)
Definition hypot_lt (a b tol : Q) : bool :=
  Qltb 0 tol && Qltb (a * a + b * b)%Q (tol * tol)%Q.

(** ** Entities *)

Inductive PyClass := ClsNode | ClsTextNode.

#[global] Instance PyClass_eq_dec : EqDecision PyClass.
Proof. solve_decision. Defined.

Record node_dict := mk_node_dict
  { nd_type : string; nd_x : Q; nd_y : Q; nd_text : string }.

Record arrow_dict := mk_arrow_dict { ad_start : Z; ad_end : Z }.

(** The value handed to [json.dump] and returned by [json.load], for
    documents with the keys and value types the program writes. *)
Record diagram_data := mk_diagram_data
  { data_nodes : list node_dict; data_arrows : list arrow_dict }.

Module Node.

Record t := mk
  { class : PyClass;
    x : Q;
    y : Q;
    text : string;
    selected : bool;
    font : QFontMetrics.t;
    w : Z;
    h : Z }.

Definition isinstance_TextNode (n : t) : bool := bool_decide (class n = ClsTextNode).

(** [Node.set_text], lines 39-45. *)
Definition Node_set_text (n : t) (s : string) : t :=
  let metrics := font n in
  let text_width := QFontMetrics.horizontalAdvance metrics s in
  let text_height := QFontMetrics.height metrics in
  mk (class n) (x n) (y n) s (selected n) (font n) (text_width + 18) (text_height + 12).

(** [TextNode.set_text], lines 87-93. *)
Definition TextNode_set_text (n : t) (s : string) : t :=
  let metrics := font n in
  let text_width := QFontMetrics.horizontalAdvance metrics s in
  let text_height := QFontMetrics.height metrics in
  mk (class n) (x n) (y n) s (selected n) (font n) (text_width + 18) (text_height + 12).

(** Method dispatch on the object's class. *)
Definition set_text (n : t) (s : string) : t :=
  match class n with
  | ClsNode => Node_set_text n s
  | ClsTextNode => TextNode_set_text n s
  end.

(** [Node.__init__] and, through [super().__init__], [TextNode.__init__]:
    the size fields do not exist before the call of [set_text]. *)
Definition init (c : PyClass) (x0 y0 : Q) (s : string) (f : QFontMetrics.t) : t :=
  set_text (mk c x0 y0 s false f 0 0) s.

Definition set_selected (b : bool) (n : t) : t :=
  mk (class n) (x n) (y n) (text n) b (font n) (w n) (h n).

Definition set_xy (x0 y0 : Q) (n : t) : t :=
  mk (class n) x0 y0 (text n) (selected n) (font n) (w n) (h n).

Definition rect (n : t) : QRectF :=
  mkQRectF (x n) (y n) (inject_Z (w n)) (inject_Z (h n)).

Definition center (n : t) : QPointF :=
  mkQPointF (x n + inject_Z (w n) / 2)%Q (y n + inject_Z (h n) / 2)%Q.

Definition contains (n : t) (p : QPointF) : bool := QRectF_contains (rect n) p.

Definition scale_x (n : t) (dx : Q) : xfloat :=
  if negb (Qeq_bool dx 0) then Fin ((inject_Z (w n) / 2) / Qabs dx)%Q else PosInf.

Definition scale_y (n : t) (dy : Q) : xfloat :=
  if negb (Qeq_bool dy 0) then Fin ((inject_Z (h n) / 2) / Qabs dy)%Q else PosInf.

(** [Node.boundary_point], lines 56-68.  The last branch is [0 * inf]; it is
    never taken, see [boundary_scale_finite]. *)
Definition boundary_point (n : t) (target : QPointF) : QPointF :=
  let cx := px (center n) in
  let cy := py (center n) in
  let dx := (px target - cx)%Q in
  let dy := (py target - cy)%Q in
  if Qeq_bool dx 0 && Qeq_bool dy 0 then mkQPointF cx cy
  else
    match xmin (scale_x n dx) (scale_y n dy) with
    | Fin scale => mkQPointF (cx + dx * scale)%Q (cy + dy * scale)%Q
    | PosInf => mkQPointF cx cy
    end.

Definition to_dict (n : t) : node_dict :=
  match class n with
  | ClsNode => mk_node_dict "node" (x n) (y n) (text n)
  | ClsTextNode => mk_node_dict "textnode" (x n) (y n) (text n)
  end.

Definition from_dict (c : PyClass) (d : node_dict) (f : QFontMetrics.t) : t :=
  init c (nd_x d) (nd_y d) (nd_text d) f.

End Node.

#[global] Instance Node_inhabited : Inhabited Node.t :=
  populate (Node.mk ClsNode 0 0 "" false (QFontMetrics.mk (fun _ => 0) 0) 0 0).

Module Arrow.

Record t := mk { start_node : nat; end_node : nat; selected : bool }.

Definition init (s e : nat) : t := mk s e false.

Definition set_selected (b : bool) (a : t) : t := mk (start_node a) (end_node a) b.

Definition points (objs : list Node.t) (a : t) : QPointF * QPointF :=
  let s := objs !!! start_node a in
  let e := objs !!! end_node a in
  (Node.boundary_point s (Node.center e), Node.boundary_point e (Node.center s)).

Definition clamp01 (t0 : Q) : Q :=
  let m := if Qltb t0 1 then t0 else 1%Q in
  if Qltb 0 m then m else 0%Q.

(** [Arrow.contains], lines 126-139, with [tolerance] explicit. *)
Definition contains (objs : list Node.t) (a : t) (pos : QPointF) (tolerance : Q) : bool :=
  let '(st, en) := points objs a in
  let x0 := px pos in let y0 := py pos in
  let x1 := px st in let y1 := py st in
  let x2 := px en in let y2 := py en in
  let dx := (x2 - x1)%Q in let dy := (y2 - y1)%Q in
  if Qeq_bool dx dy && Qeq_bool dy 0 then hypot_lt (x0 - x1) (y0 - y1) tolerance
  else
    let t0 := (((x0 - x1) * dx + (y0 - y1) * dy) / (dx * dx + dy * dy))%Q in
    let t1 := clamp01 t0 in
    let proj_x := (x1 + t1 * dx)%Q in
    let proj_y := (y1 + t1 * dy)%Q in
    hypot_lt (x0 - proj_x) (y0 - proj_y) tolerance.

(** [Arrow.to_dict]: a missing key of [node_indices] is KeyError. *)
Definition to_dict (a : t) (node_indices : gmap nat nat) : option arrow_dict :=
  match node_indices !! start_node a with
  | None => None
  | Some i =>
      match node_indices !! end_node a with
      | None => None
      | Some j => Some (mk_arrow_dict (Z.of_nat i) (Z.of_nat j))
      end
  end.

End Arrow.

#[global] Instance Arrow_inhabited : Inhabited Arrow.t := populate (Arrow.mk 0 0 false).

(** ** The canvas widget *)

Inductive MouseButton := LeftButton | RightButton | MiddleButton.

Module CanvasWidget.

Record t := mk
  { node_objs : list Node.t;          (* arena of node objects *)
    arrow_objs : list Arrow.t;        (* arena of arrow objects *)
    nodes : list nat;
    arrows : list nat;
    dragging_node : option nat;
    drag_offset : QPointF;
    selected_node : option nat;
    selected_arrow : option nat;
    arrow_source_node : option nat;
    node_font : QFontMetrics.t;
    _zoom : Q;
    editing_node : option nat }.

Inductive outcome := Returned (c : t) | Raised (e : exn) (c : t).

(** [CanvasWidget.__init__] *)
Definition init (f : QFontMetrics.t) : t :=
  mk [] [] [] [] None (mkQPointF 0 0) None None None f 1 None.

Definition set_node_objs v c := mk v (arrow_objs c) (nodes c) (arrows c) (dragging_node c)
  (drag_offset c) (selected_node c) (selected_arrow c) (arrow_source_node c) (node_font c)
  (_zoom c) (editing_node c).
Definition set_arrow_objs v c := mk (node_objs c) v (nodes c) (arrows c) (dragging_node c)
  (drag_offset c) (selected_node c) (selected_arrow c) (arrow_source_node c) (node_font c)
  (_zoom c) (editing_node c).
Definition set_nodes v c := mk (node_objs c) (arrow_objs c) v (arrows c) (dragging_node c)
  (drag_offset c) (selected_node c) (selected_arrow c) (arrow_source_node c) (node_font c)
  (_zoom c) (editing_node c).
Definition set_arrows v c := mk (node_objs c) (arrow_objs c) (nodes c) v (dragging_node c)
  (drag_offset c) (selected_node c) (selected_arrow c) (arrow_source_node c) (node_font c)
  (_zoom c) (editing_node c).
Definition set_dragging_node v c := mk (node_objs c) (arrow_objs c) (nodes c) (arrows c) v
  (drag_offset c) (selected_node c) (selected_arrow c) (arrow_source_node c) (node_font c)
  (_zoom c) (editing_node c).
Definition set_drag_offset v c := mk (node_objs c) (arrow_objs c) (nodes c) (arrows c)
  (dragging_node c) v (selected_node c) (selected_arrow c) (arrow_source_node c) (node_font c)
  (_zoom c) (editing_node c).
Definition set_selected_node v c := mk (node_objs c) (arrow_objs c) (nodes c) (arrows c)
  (dragging_node c) (drag_offset c) v (selected_arrow c) (arrow_source_node c) (node_font c)
  (_zoom c) (editing_node c).
Definition set_selected_arrow v c := mk (node_objs c) (arrow_objs c) (nodes c) (arrows c)
  (dragging_node c) (drag_offset c) (selected_node c) v (arrow_source_node c) (node_font c)
  (_zoom c) (editing_node c).
Definition set_arrow_source_node v c := mk (node_objs c) (arrow_objs c) (nodes c) (arrows c)
  (dragging_node c) (drag_offset c) (selected_node c) (selected_arrow c) v (node_font c)
  (_zoom c) (editing_node c).
Definition set_zoom v c := mk (node_objs c) (arrow_objs c) (nodes c) (arrows c)
  (dragging_node c) (drag_offset c) (selected_node c) (selected_arrow c) (arrow_source_node c)
  (node_font c) v (editing_node c).
Definition set_editing_node v c := mk (node_objs c) (arrow_objs c) (nodes c) (arrows c)
  (dragging_node c) (drag_offset c) (selected_node c) (selected_arrow c) (arrow_source_node c)
  (node_font c) (_zoom c) v.

(** The object a reference points to. *)
Definition node_at (c : t) (r : nat) : Node.t := node_objs c !!! r.
Definition arrow_at (c : t) (r : nat) : Arrow.t := arrow_objs c !!! r.

(** [self.nodes.append(node)] for a newly constructed [node]. *)
Definition append_new_node (n : Node.t) (c : t) : t :=
  set_nodes (nodes c ++ [length (node_objs c)]) (set_node_objs (node_objs c ++ [n]) c).

(** [self.arrows.append(Arrow(s, e))] *)
Definition append_new_arrow (s e : nat) (c : t) : t :=
  set_arrows (arrows c ++ [length (arrow_objs c)])
    (set_arrow_objs (arrow_objs c ++ [Arrow.init s e]) c).

(** [for n in refs: n.selected = f(n)] *)
Fixpoint mark_nodes (f : nat -> bool) (refs : list nat) (objs : list Node.t) : list Node.t :=
  match refs with
  | [] => objs
  | r :: refs' => mark_nodes f refs' (<[r := Node.set_selected (f r) (objs !!! r)]> objs)
  end.

(** [for a in refs: a.selected = f(a)] *)
Fixpoint mark_arrows (f : nat -> bool) (refs : list nat) (objs : list Arrow.t) : list Arrow.t :=
  match refs with
  | [] => objs
  | r :: refs' => mark_arrows f refs' (<[r := Arrow.set_selected (f r) (objs !!! r)]> objs)
  end.

(** [a is b] for a reference [a] and an optional reference [b] ([None] is
    Python's [None]). *)
Definition is_ (a : nat) (b : option nat) : bool := bool_decide (Some a = b).

(** [select_arrow], lines 325-333. *)
Definition select_arrow (arrow : option nat) (c : t) : t :=
  let c1 := set_arrow_objs (mark_arrows (fun a => is_ a arrow) (arrows c) (arrow_objs c)) c in
  let c2 := set_selected_arrow arrow c1 in
  match arrow with
  | Some _ =>
      set_selected_node None
        (set_node_objs (mark_nodes (fun _ => false) (nodes c2) (node_objs c2)) c2)
  | None => c2
  end.

(** [select_node], lines 318-323. *)
Definition select_node (node : option nat) (c : t) : t :=
  let c1 := set_node_objs (mark_nodes (fun n => is_ n node) (nodes c) (node_objs c)) c in
  let c2 := set_selected_node node c1 in
  select_arrow None c2.

Definition hide_editor (c : t) : t := set_editing_node None c.

Definition count_concepts (c : t) : nat :=
  length (filter (fun r => Node.isinstance_TextNode (node_at c r) = false) (nodes c)).

Definition count_texts (c : t) : nat :=
  length (filter (fun r => Node.isinstance_TextNode (node_at c r) = true) (nodes c)).

(** [add_node], lines 335-340; [text = None] is Python's default. *)
Definition add_node (x y : Q) (text : option string) (c : t) : t :=
  let text := match text with
              | Some s => s
              | None => "Node " +:+ pretty (count_concepts c + 1)%nat
              end in
  append_new_node (Node.init ClsNode x y text (node_font c)) c.

(** [add_text_node], lines 342-347. *)
Definition add_text_node (x y : Q) (text : option string) (c : t) : t :=
  let text := match text with
              | Some s => s
              | None => "Text " +:+ pretty (count_texts c + 1)%nat
              end in
  append_new_node (Node.init ClsTextNode x y text (node_font c)) c.

(** The list comprehension of [delete_selected_node]. *)
Definition arrows_not_touching (sel : nat) (c : t) : list nat :=
  filter (fun a => Arrow.start_node (arrow_at c a) <> sel /\
                   Arrow.end_node (arrow_at c a) <> sel) (arrows c).

(** [delete_selected_node], lines 349-357. *)
Definition delete_selected_node (c : t) : outcome :=
  match selected_node c with
  | Some sel =>
      let c1 := set_arrows (arrows_not_touching sel c) c in
      match py_remove sel (nodes c1) with
      | None => Raised ValueError c1
      | Some ns => Returned (set_selected_node None (set_nodes ns c1))
      end
  | None => Returned c
  end.

(** [delete_selected_arrow], lines 359-363. *)
Definition delete_selected_arrow (c : t) : outcome :=
  match selected_arrow c with
  | Some sel =>
      match py_remove sel (arrows c) with
      | None => Raised ValueError c
      | Some l => Returned (set_selected_arrow None (set_arrows l c))
      end
  | None => Returned c
  end.

(** First hit in [reversed(self.arrows)] / [reversed(self.nodes)]. *)
Definition hit_arrow (c : t) (pos : QPointF) : option nat :=
  List.find (fun a => Arrow.contains (node_objs c) (arrow_at c a) pos 8) (reverse (arrows c)).

Definition hit_node (c : t) (pos : QPointF) : option nat :=
  List.find (fun n => Node.contains (node_at c n) pos) (reverse (nodes c)).

Definition scaled (p : QPointF) (z : Q) : QPointF := mkQPointF (px p / z)%Q (py p / z)%Q.

Definition minus (p q : QPointF) : QPointF := mkQPointF (px p - px q)%Q (py p - py q)%Q.

(** [mousePressEvent], lines 225-261; [position] is [event.position()]. *)
Definition mousePressEvent (button : MouseButton) (position : QPointF) (c : t) : t :=
  let pos := scaled position (_zoom c) in
  match button with
  | LeftButton =>
      match hit_arrow c pos with
      | Some arrow => hide_editor (select_arrow (Some arrow) c)
      | None =>
          match hit_node c pos with
          | Some node =>
              let c1 := select_node (Some node) c in
              let c2 := set_dragging_node (Some node) c1 in
              let c3 := set_drag_offset
                          (minus pos (mkQPointF (Node.x (node_at c2 node))
                                                (Node.y (node_at c2 node)))) c2 in
              hide_editor c3
          | None =>
              hide_editor (set_dragging_node None (select_arrow None (select_node None c)))
          end
      end
  | RightButton =>
      match hit_node c pos with
      | Some node =>
          match arrow_source_node c with
          | Some src =>
              if decide (src <> node)
              then hide_editor (set_arrow_source_node None (append_new_arrow src node c))
              else set_arrow_source_node (Some node) c
          | None => set_arrow_source_node (Some node) c
          end
      | None =>
          match arrow_source_node c with
          | Some _ => set_arrow_source_node None c
          | None => c
          end
      end
  | MiddleButton => c
  end.

(** [mouseMoveEvent], lines 263-269. *)
Definition mouseMoveEvent (position : QPointF) (c : t) : t :=
  match dragging_node c with
  | Some d =>
      let pos := minus (scaled position (_zoom c)) (drag_offset c) in
      hide_editor
        (set_node_objs (<[d := Node.set_xy (px pos) (py pos) (node_at c d)]> (node_objs c)) c)
  | None => c
  end.

Definition mouseReleaseEvent (c : t) : t := set_dragging_node None c.

(** [mouseDoubleClickEvent], lines 274-281. *)
Definition mouseDoubleClickEvent (position : QPointF) (c : t) : t :=
  let pos := scaled position (_zoom c) in
  match hit_node c pos with
  | Some node => set_editing_node (Some node) c
  | None => add_node 20 20 None c
  end.

(** [finish_editing], lines 296-302; [entered] is [self.editor.text()]. *)
Definition finish_editing (entered : string) (c : t) : t :=
  match editing_node c with
  | Some e =>
      set_editing_node None
        (set_node_objs (<[e := Node.set_text (node_at c e) entered]> (node_objs c)) c)
  | None => c
  end.

Definition zoom_in (c : t) : t := hide_editor (set_zoom (_zoom c * (115 # 100))%Q c).

Definition zoom_out (c : t) : t := hide_editor (set_zoom (_zoom c / (115 # 100))%Q c).

(** *** Persistence *)

(** [{node: idx for idx, node in enumerate(self.nodes)}]: a later entry for
    the same key replaces the earlier one. *)
Fixpoint enumerate_into (idx : nat) (l : list nat) (m : gmap nat nat) : gmap nat nat :=
  match l with
  | [] => m
  | node :: l' => enumerate_into (S idx) l' (<[node := idx]> m)
  end.

Definition node_indices (c : t) : gmap nat nat := enumerate_into 0 (nodes c) ∅.

Inductive saved := Dumped (data : diagram_data) | SaveRaised (e : exn).

(** [save_diagram], lines 365-372: the value passed to [json.dump]; the
    widget is not modified. *)
Definition save_diagram (c : t) : saved :=
  let idx := node_indices c in
  let ns := map (fun r => Node.to_dict (node_at c r)) (nodes c) in
  match mapM (fun a => Arrow.to_dict (arrow_at c a) idx) (arrows c) with
  | Some ads => Dumped (mk_diagram_data ns ads)
  | None => SaveRaised KeyError
  end.

(** First loop of [load_diagram], lines 379-386. *)
Fixpoint load_nodes (nds : list node_dict) (c : t) : t :=
  match nds with
  | [] => c
  | nd :: nds' =>
      if String.eqb (nd_type nd) "node"
      then load_nodes nds' (append_new_node (Node.from_dict ClsNode nd (node_font c)) c)
      else if String.eqb (nd_type nd) "textnode"
      then load_nodes nds' (append_new_node (Node.from_dict ClsTextNode nd (node_font c)) c)
      else load_nodes nds' c
  end.

(** Second loop of [load_diagram], lines 387-390. *)
Fixpoint load_arrows (ads : list arrow_dict) (c : t) : outcome :=
  match ads with
  | [] => Returned c
  | ad :: ads' =>
      match py_getitem (nodes c) (ad_start ad) with
      | None => Raised IndexError c
      | Some start =>
          match py_getitem (nodes c) (ad_end ad) with
          | None => Raised IndexError c
          | Some end_ => load_arrows ads' (append_new_arrow start end_ c)
          end
      end
  end.

(** [load_diagram], lines 374-394; [data] is the result of [json.load]. *)
Definition load_diagram (data : diagram_data) (c : t) : outcome :=
  let c1 := set_arrows [] (set_nodes [] c) in
  let c2 := load_nodes (data_nodes data) c1 in
  match load_arrows (data_arrows data) c2 with
  | Raised e c3 => Raised e c3
  | Returned c3 =>
      Returned (set_arrow_source_node None (set_selected_arrow None (set_selected_node None c3)))
  end.

(** *** Export of propositions *)

(** [outgoing.setdefault(arrow.start_node, []).append(arrow.end_node)] for
    every arrow. *)
Fixpoint outgoing_of (c : t) (refs : list nat) (m : gmap nat (list nat)) : gmap nat (list nat) :=
  match refs with
  | [] => m
  | a :: refs' =>
      let s := Arrow.start_node (arrow_at c a) in
      let e := Arrow.end_node (arrow_at c a) in
      outgoing_of c refs' (<[s := default [] (m !! s) ++ [e]]> m)
  end.

Definition is_concept (c : t) (r : nat) : bool := negb (Node.isinstance_TextNode (node_at c r)).

Definition is_text (c : t) (r : nat) : bool := Node.isinstance_TextNode (node_at c r).

Definition newline : string := String (Ascii.ascii_of_nat 10) EmptyString.

Definition triple_line (c : t) (node mid end_ : nat) : string :=
  Node.text (node_at c node) +:+ ", " +:+ Node.text (node_at c mid) +:+ ", "
    +:+ Node.text (node_at c end_) +:+ newline.

(** [export_node_textnode_node_tuples], lines 396-407: the strings written
    to the file, in order. *)
Definition export_node_textnode_node_tuples (c : t) : list string :=
  let outgoing := outgoing_of c (arrows c) ∅ in
  flat_map (fun node =>
    if is_concept c node then
      flat_map (fun mid =>
        if is_text c mid then
          flat_map (fun end_ =>
            if is_concept c end_ then [triple_line c node mid end_] else [])
            (default [] (outgoing !! mid))
        else [])
        (default [] (outgoing !! node))
    else [])
    (nodes c).

End CanvasWidget.

(** ** The main window and the event loop *)

Module MainWindow.

(** [MainWindow.delete_selected], lines 485-489. *)
Definition delete_selected (c : CanvasWidget.t) : CanvasWidget.outcome :=
  match CanvasWidget.selected_node c with
  | Some _ => CanvasWidget.delete_selected_node c
  | None =>
      match CanvasWidget.selected_arrow c with
      | Some _ => CanvasWidget.delete_selected_arrow c
      | None => CanvasWidget.Returned c
      end
  end.

End MainWindow.

(** What the user and the toolkit can make the program do. *)
Inductive event :=
  | MousePress (button : MouseButton) (position : QPointF)
  | MouseMove (position : QPointF)
  | MouseRelease
  | MouseDoubleClick (position : QPointF)
  | EditingFinished (entered : string)
  | ClickConcept
  | ClickAddTextNode
  | ClickDelete
  | ClickLoad (data : diagram_data)
  | ClickZoomIn
  | ClickZoomOut.

Definition handle (ev : event) (c : CanvasWidget.t) : CanvasWidget.outcome :=
  match ev with
  | MousePress b p => CanvasWidget.Returned (CanvasWidget.mousePressEvent b p c)
  | MouseMove p => CanvasWidget.Returned (CanvasWidget.mouseMoveEvent p c)
  | MouseRelease => CanvasWidget.Returned (CanvasWidget.mouseReleaseEvent c)
  | MouseDoubleClick p => CanvasWidget.Returned (CanvasWidget.mouseDoubleClickEvent p c)
  | EditingFinished s => CanvasWidget.Returned (CanvasWidget.finish_editing s c)
  | ClickConcept => CanvasWidget.Returned (CanvasWidget.add_node 20 20 None c)
  | ClickAddTextNode => CanvasWidget.Returned (CanvasWidget.add_text_node 20 20 None c)
  | ClickDelete => MainWindow.delete_selected c
  | ClickLoad data => CanvasWidget.load_diagram data c
  | ClickZoomIn => CanvasWidget.Returned (CanvasWidget.zoom_in c)
  | ClickZoomOut => CanvasWidget.Returned (CanvasWidget.zoom_out c)
  end.

(** The event loop: handlers run one after the other; an exception that
    leaves a handler ends the run. *)
Fixpoint run (evs : list event) (c : CanvasWidget.t) : CanvasWidget.outcome :=
  match evs with
  | [] => CanvasWidget.Returned c
  | ev :: evs' =>
      match handle ev c with
      | CanvasWidget.Returned c' => run evs' c'
      | CanvasWidget.Raised e c' => CanvasWidget.Raised e c'
      end
  end.

(** States the editor can be in: reached from the empty canvas by handlers
    that returned. *)
Definition reachable (f : QFontMetrics.t) (c : CanvasWidget.t) : Prop :=
  exists evs, run evs (CanvasWidget.init f) = CanvasWidget.Returned c.

(** ** Notions used by the statements *)

(** The size of a node agrees with its current text and font. *)
Definition sized (n : Node.t) : Prop :=
  Node.w n = QFontMetrics.horizontalAdvance (Node.font n) (Node.text n) + 18 /\
  Node.h n = QFontMetrics.height (Node.font n) + 12.


(** Structural invariant of the widget: references point into the arenas,
    the collections hold no object twice, the selection pointers point into
    the collections and are not both set, and every node has the size of its
    text. *)
Record wf (c : CanvasWidget.t) : Prop := mk_wf
  { wf_nodes_range : Forall (fun r => (r < length (CanvasWidget.node_objs c))%nat)
                            (CanvasWidget.nodes c);
    wf_arrows_range : Forall (fun r => (r < length (CanvasWidget.arrow_objs c))%nat)
                             (CanvasWidget.arrows c);
    wf_nodes_nodup : NoDup (CanvasWidget.nodes c);
    wf_arrows_nodup : NoDup (CanvasWidget.arrows c);
    wf_selected_node : forall n, CanvasWidget.selected_node c = Some n ->
                                 n ∈ CanvasWidget.nodes c;
    wf_selected_arrow : forall a, CanvasWidget.selected_arrow c = Some a ->
                                  a ∈ CanvasWidget.arrows c;
    wf_exclusive : CanvasWidget.selected_node c = None \/
                   CanvasWidget.selected_arrow c = None;
    wf_sized : Forall sized (CanvasWidget.node_objs c) }.

(** The node object a dictionary of the file becomes, [None] for a type
    that [load_diagram] skips. *)
Definition node_of_dict (f : QFontMetrics.t) (nd : node_dict) : option Node.t :=
  if String.eqb (nd_type nd) "node" then Some (Node.from_dict ClsNode nd f)
  else if String.eqb (nd_type nd) "textnode" then Some (Node.from_dict ClsTextNode nd f)
  else None.

(** The arrow object a dictionary of the file becomes over the node list
    [ns], [None] when an index is refused by the list. *)
Definition resolve (ns : list nat) (ad : arrow_dict) : option Arrow.t :=
  match py_getitem ns (ad_start ad) with
  | None => None
  | Some s =>
      match py_getitem ns (ad_end ad) with
      | None => None
      | Some e => Some (Arrow.init s e)
      end
  end.

(** A font whose glyphs are all 8 wide and 16 high, and a node drawn with
    it, for the examples. *)
Definition mono_font : QFontMetrics.t :=
  QFontMetrics.mk (fun s => 8 * Z.of_nat (String.length s)) 16.

Definition at_ (x y : Z) : QPointF := mkQPointF (inject_Z x) (inject_Z y).


(** The widget after [new] arrow objects have been created and appended. *)
Definition with_arrows_appended (new : list Arrow.t) (c : CanvasWidget.t) : CanvasWidget.t :=
  CanvasWidget.set_arrows
    (CanvasWidget.arrows c ++ seq (length (CanvasWidget.arrow_objs c)) (length new))
    (CanvasWidget.set_arrow_objs (CanvasWidget.arrow_objs c ++ new) c).

(** The widget after [new] node objects have been created and appended. *)
Definition with_nodes_appended (new : list Node.t) (c : CanvasWidget.t) : CanvasWidget.t :=
  CanvasWidget.set_nodes
    (CanvasWidget.nodes c ++ seq (length (CanvasWidget.node_objs c)) (length new))
    (CanvasWidget.set_node_objs (CanvasWidget.node_objs c ++ new) c).

(** Number of entities of the two collections whose [selected] flag is set. *)
Definition selected_count (c : CanvasWidget.t) : nat :=
  (length (filter (fun r => Node.selected (CanvasWidget.node_at c r) = true)
                  (CanvasWidget.nodes c))
   + length (filter (fun a => Arrow.selected (CanvasWidget.arrow_at c a) = true)
                    (CanvasWidget.arrows c)))%nat.

(** The widget after [evs], whether or not a handler raised. *)
Definition after (evs : list event) (f : QFontMetrics.t) : CanvasWidget.t :=
  match run evs (CanvasWidget.init f) with
  | CanvasWidget.Returned c => c
  | CanvasWidget.Raised _ c => c
  end.

(** One concept node, as left by a click on "Concept". *)
Definition one_node : CanvasWidget.t := after [ClickConcept] mono_font.



(** Events that build the proposition "Node 1, Text 1, Node 2": three nodes
    dragged apart, then two linking gestures. *)
Definition proposition_events : list event :=
  [ ClickConcept; ClickAddTextNode;
    MousePress LeftButton (at_ 25 25); MouseMove (at_ 125 25); MouseRelease;
    ClickConcept;
    MousePress LeftButton (at_ 25 25); MouseMove (at_ 225 25); MouseRelease;
    MousePress RightButton (at_ 25 25); MousePress RightButton (at_ 125 25);
    MousePress RightButton (at_ 125 25); MousePress RightButton (at_ 225 25);
    MousePress LeftButton (at_ 500 500) ].

Definition proposition : CanvasWidget.t := after proposition_events mono_font.


(** The invariant of the data model on arrows: both endpoints of every arrow
    of the collection are in the node collection. *)
Definition endpoints_present (c : CanvasWidget.t) : Prop :=
  forall a, a ∈ CanvasWidget.arrows c ->
    Arrow.start_node (CanvasWidget.arrow_at c a) ∈ CanvasWidget.nodes c /\
    Arrow.end_node (CanvasWidget.arrow_at c a) ∈ CanvasWidget.nodes c.

(** An arrow dictionary whose two indices are positions below [n]. *)
Definition indices_below (n : nat) (ad : arrow_dict) : Prop :=
  exists i j, (i < n)%nat /\ (j < n)%nat /\ ad = mk_arrow_dict (Z.of_nat i) (Z.of_nat j).

(** The node [load_diagram] builds from the dictionary of [n]. *)
Definition rebuilt (f : QFontMetrics.t) (n : Node.t) : Node.t :=
  Node.init (Node.class n) (Node.x n) (Node.y n) (Node.text n) f.

(** Number of node entries of a file that [load_diagram] turns into nodes
    (entries of type "node" or "textnode"). *)
Definition node_count (data : diagram_data) : nat :=
  length (List.filter (fun nd => String.eqb (nd_type nd) "node"
                                 || String.eqb (nd_type nd) "textnode")
                      (data_nodes data)).

(** An index that a Python list of length [n] accepts. *)
Definition index_accepted (n : nat) (i : Z) : Prop := - Z.of_nat n <= i < Z.of_nat n.

(** A file with two nodes and an arrow whose start index is 5, and one
    whose start index is -1. *)
Definition file_index_5 : diagram_data :=
  mk_diagram_data [mk_node_dict "node" 0 0 "A"; mk_node_dict "node" 100 0 "B"]
                  [mk_arrow_dict 5 0].

Definition file_index_minus_1 : diagram_data :=
  mk_diagram_data [mk_node_dict "node" 0 0 "A"; mk_node_dict "node" 100 0 "B"]
                  [mk_arrow_dict (-1) 0].

(** Two concept nodes dragged apart; the first becomes the pending source
    of a link, is selected and deleted; the link is then completed on the
    second. *)
Definition dangling_events : list event :=
  [ ClickConcept; ClickConcept;
    MousePress LeftButton (at_ 25 25); MouseMove (at_ 205 25); MouseRelease;
    MousePress RightButton (at_ 25 25);
    MousePress LeftButton (at_ 25 25); MouseRelease;
    ClickDelete;
    MousePress RightButton (at_ 205 25) ].

(** The selection flags agree with the selection pointers: an entity of a
    collection is flagged exactly when the pointer of its kind points to it. *)
Definition flags_agree (c : CanvasWidget.t) : Prop :=
  (forall m, m ∈ CanvasWidget.nodes c ->
     Node.selected (CanvasWidget.node_at c m) = CanvasWidget.is_ m (CanvasWidget.selected_node c)) /\
  (forall a, a ∈ CanvasWidget.arrows c ->
     Arrow.selected (CanvasWidget.arrow_at c a) = CanvasWidget.is_ a (CanvasWidget.selected_arrow c)).

(** Every arrow of the collection joins two nodes of the node collection,
    and so would an arrow started from the pending source. *)
Definition attached (c : CanvasWidget.t) : Prop :=
  endpoints_present c /\
  (forall s, CanvasWidget.arrow_source_node c = Some s -> s ∈ CanvasWidget.nodes c).

(** A node entry of a file that [load_diagram] does not skip. *)
Definition known_type (nd : node_dict) : bool :=
  String.eqb (nd_type nd) "node" || String.eqb (nd_type nd) "textnode".

(** The position a Python list of length [n] reads for the index [i]. *)
Definition normalise_index (n : nat) (i : Z) : Z :=
  if decide (i < 0) then Z.of_nat n + i else i.

Definition normalise_arrow (n : nat) (ad : arrow_dict) : arrow_dict :=
  mk_arrow_dict (normalise_index n (ad_start ad)) (normalise_index n (ad_end ad)).

(** The widget after a load, whether or not it raised. *)
Definition loaded (data : diagram_data) (c : CanvasWidget.t) : CanvasWidget.t :=
  match CanvasWidget.load_diagram data c with
  | CanvasWidget.Returned c' => c'
  | CanvasWidget.Raised _ c' => c'
  end.

(** Along the run of [evs] from [c], the Delete button is never pressed
    while the selected node is the pending source of a link. *)
Fixpoint never_deletes_pending_source (evs : list event) (c : CanvasWidget.t) : Prop :=
  match evs with
  | [] => True
  | ev :: evs' =>
      (ev = ClickDelete ->
       forall n, CanvasWidget.selected_node c = Some n ->
                 CanvasWidget.arrow_source_node c <> Some n) /\
      match handle ev c with
      | CanvasWidget.Returned c' => never_deletes_pending_source evs' c'
      | CanvasWidget.Raised _ _ => True
      end
  end.

(** * Properties *)

(** ** Sizing of nodes *)

Lemma set_text_sized n s : sized (Node.set_text n s).
Proof. unfold sized, Node.set_text. destruct (Node.class n); simpl; auto. Qed.

Lemma init_sized c x y s f : sized (Node.init c x y s f).
Proof. apply set_text_sized. Qed.

Lemma set_selected_sized b n : sized n -> sized (Node.set_selected b n).
Proof. unfold sized. simpl. auto. Qed.

Lemma set_xy_sized x y n : sized n -> sized (Node.set_xy x y n).
Proof. unfold sized. simpl. auto. Qed.

(** Updating an object in place keeps a property of all objects of the
    arena when the update keeps it. *)
Lemma Forall_modify {A} `{Inhabited A} (P : A -> Prop) (f : A -> A) (l : list A) (r : nat) :
  (forall a, P a -> P (f a)) -> Forall P l -> Forall P (<[r := f (l !!! r)]> l).
Proof.
  intros Hf Hl. destruct (decide (r < length l)%nat) as [Hr|Hr].
  - apply Forall_insert; [exact Hl|]. apply Hf.
    destruct (lookup_lt_is_Some_2 l r Hr) as [a Ha].
    rewrite (list_lookup_total_correct _ _ _ Ha).
    eapply Forall_lookup_1; eauto.
  - rewrite list_insert_ge by lia. exact Hl.
Qed.

Lemma mark_nodes_Forall (P : Node.t -> Prop) f refs objs :
  (forall b n, P n -> P (Node.set_selected b n)) ->
  Forall P objs -> Forall P (CanvasWidget.mark_nodes f refs objs).
Proof.
  intros HP. revert objs. induction refs as [|r refs IH]; intros objs Hobjs; simpl; [done|].
  apply IH. apply Forall_modify; auto.
Qed.

Lemma mark_nodes_length f refs objs : length (CanvasWidget.mark_nodes f refs objs) = length objs.
Proof.
  revert objs. induction refs as [|r refs IH]; intros objs; simpl; [done|].
  rewrite IH. apply length_insert.
Qed.

Lemma mark_arrows_length f refs objs : length (CanvasWidget.mark_arrows f refs objs) = length objs.
Proof.
  revert objs. induction refs as [|r refs IH]; intros objs; simpl; [done|].
  rewrite IH. apply length_insert.
Qed.

(** ** Comparisons on rationals *)




(** ** Anchoring of arrows on the rectangle of a node *)












(** ** Invariants of the reachable states *)

Lemma reachable_ind (f : QFontMetrics.t) (P : CanvasWidget.t -> Prop) :
  P (CanvasWidget.init f) ->
  (forall c ev c', P c -> handle ev c = CanvasWidget.Returned c' -> P c') ->
  forall c, reachable f c -> P c.
Proof.
  intros Hinit Hstep c [evs Hrun].
  revert Hrun. generalize (CanvasWidget.init f) Hinit. clear Hinit.
  induction evs as [|ev evs IH]; intros c0 Hc0 Hrun; simpl in Hrun.
  - inversion Hrun. subst. exact Hc0.
  - destruct (handle ev c0) as [c1|e c1] eqn:Hh; [|discriminate].
    eapply IH; [|exact Hrun]. eapply Hstep; eauto.
Qed.

Lemma reachable_step f c ev c' :
  reachable f c -> handle ev c = CanvasWidget.Returned c' -> reachable f c'.
Proof.
  intros [evs Hrun] Hh. exists (evs ++ [ev]).
  revert Hrun. generalize (CanvasWidget.init f).
  induction evs as [|e0 evs IH]; intros c0 Hrun; simpl in *.
  - inversion Hrun. subst. rewrite Hh. reflexivity.
  - destruct (handle e0 c0); [|discriminate]. apply IH. exact Hrun.
Qed.

Lemma Forall_weaken_refs (P : nat -> Prop) (l l' : list nat) :
  (forall x, x ∈ l' -> x ∈ l) -> Forall P l -> Forall P l'.
Proof. rewrite !Forall_forall. auto. Qed.

Lemma Forall_lt_mono (l : list nat) (a b : nat) :
  (a <= b)%nat -> Forall (fun r => (r < a)%nat) l -> Forall (fun r => (r < b)%nat) l.
Proof. intros Hab Hl. eapply Forall_impl; [exact Hl|]. simpl. intros; lia. Qed.

Lemma py_remove_elem v l l' :
  py_remove v l = Some l' -> NoDup l -> forall x, x ∈ l' <-> x ∈ l /\ x <> v.
Proof.
  revert l'. induction l as [|u l IH]; intros l' Hr Hnd x; simpl in Hr; [discriminate|].
  apply NoDup_cons in Hnd as [Hu Hnd].
  destruct (decide (u = v)) as [->|Hne].
  - inversion Hr; subst. rewrite elem_of_cons. split.
    + intros Hx. split; [auto|]. intros ->. contradiction.
    + intros [[->|Hx] Hxv]; [contradiction|exact Hx].
  - destruct (py_remove v l) as [r|] eqn:Er; [|discriminate]. inversion Hr; subst.
    rewrite !elem_of_cons, (IH r eq_refl Hnd x). split.
    + intros [->|[Hx Hxv]]; auto.
    + intros [[->|Hx] Hxv]; auto.
Qed.

Lemma py_remove_NoDup v l l' : py_remove v l = Some l' -> NoDup l -> NoDup l'.
Proof.
  revert l'. induction l as [|u l IH]; intros l' Hr Hnd; simpl in Hr; [discriminate|].
  pose proof Hnd as Hnd0. apply NoDup_cons in Hnd as [Hu Hnd].
  destruct (decide (u = v)) as [->|Hne].
  - inversion Hr; subst. exact Hnd.
  - destruct (py_remove v l) as [r|] eqn:Er; [|discriminate]. inversion Hr; subst.
    apply NoDup_cons. split; [|auto].
    intros Hin. apply (py_remove_elem v l r Er Hnd) in Hin. tauto.
Qed.

Lemma py_remove_is_Some v l : v ∈ l -> is_Some (py_remove v l).
Proof.
  induction l as [|u l IH]; intros Hin; simpl.
  - apply elem_of_nil in Hin. contradiction.
  - destruct (decide (u = v)); [eauto|].
    apply elem_of_cons in Hin as [->|Hin]; [congruence|].
    destruct (IH Hin) as [r ->]. eauto.
Qed.

Lemma hit_node_elem c pos n : CanvasWidget.hit_node c pos = Some n -> n ∈ CanvasWidget.nodes c.
Proof.
  unfold CanvasWidget.hit_node. intros Hf. apply find_some in Hf as [Hin _].
  apply list_elem_of_In in Hin. rewrite elem_of_reverse in Hin. exact Hin.
Qed.

Lemma hit_arrow_elem c pos a : CanvasWidget.hit_arrow c pos = Some a -> a ∈ CanvasWidget.arrows c.
Proof.
  unfold CanvasWidget.hit_arrow. intros Hf. apply find_some in Hf as [Hin _].
  apply list_elem_of_In in Hin. rewrite elem_of_reverse in Hin. exact Hin.
Qed.

Lemma wf_init f : wf (CanvasWidget.init f).
Proof.
  constructor; simpl; try discriminate; try (by constructor).
Qed.

Lemma wf_select_arrow arrow c :
  wf c -> (forall a, arrow = Some a -> a ∈ CanvasWidget.arrows c) ->
  wf (CanvasWidget.select_arrow arrow c).
Proof.
  intros [] Ha. unfold CanvasWidget.select_arrow.
  destruct arrow as [a|]; constructor; simpl;
    rewrite ?mark_nodes_length, ?mark_arrows_length; auto; try discriminate.
  apply mark_nodes_Forall; auto using set_selected_sized.
Qed.

Lemma wf_select_node node c :
  wf c -> (forall n, node = Some n -> n ∈ CanvasWidget.nodes c) ->
  wf (CanvasWidget.select_node node c).
Proof.
  intros [] Hn. unfold CanvasWidget.select_node, CanvasWidget.select_arrow.
  constructor; simpl; rewrite ?mark_nodes_length, ?mark_arrows_length; auto;
    try discriminate.
  apply mark_nodes_Forall; auto using set_selected_sized.
Qed.

Lemma wf_append_new_node n c : wf c -> sized n -> wf (CanvasWidget.append_new_node n c).
Proof.
  intros [] Hn. constructor; simpl; auto.
  - rewrite length_app. simpl. apply Forall_app. split.
    + eapply Forall_lt_mono; [|eauto]. lia.
    + constructor; [lia|constructor].
  - apply NoDup_app. split; [auto|]. split; [|apply NoDup_singleton].
    intros x Hx Hx'. apply list_elem_of_singleton in Hx'. subst.
    rewrite Forall_forall in wf_nodes_range0. specialize (wf_nodes_range0 _ Hx). lia.
  - intros m Hm. apply elem_of_app. left. auto.
  - apply Forall_app. split; [auto|]. constructor; [exact Hn|constructor].
Qed.

Lemma wf_append_new_arrow s e c : wf c -> wf (CanvasWidget.append_new_arrow s e c).
Proof.
  intros []. constructor; simpl; auto.
  - rewrite length_app. simpl. apply Forall_app. split.
    + eapply Forall_lt_mono; [|eauto]. lia.
    + constructor; [lia|constructor].
  - apply NoDup_app. split; [auto|]. split; [|apply NoDup_singleton].
    intros x Hx Hx'. apply list_elem_of_singleton in Hx'. subst.
    rewrite Forall_forall in wf_arrows_range0. specialize (wf_arrows_range0 _ Hx). lia.
  - intros m Hm. apply elem_of_app. left. auto.
Qed.

Lemma wf_delete_selected_node c c' :
  wf c -> CanvasWidget.delete_selected_node c = CanvasWidget.Returned c' -> wf c'.
Proof.
  intros Hwf. pose proof Hwf as []. unfold CanvasWidget.delete_selected_node.
  destruct (CanvasWidget.selected_node c) as [sel|] eqn:Hsel; [|intros [= <-]; exact Hwf].
  simpl. destruct (py_remove sel (CanvasWidget.nodes c)) as [ns|] eqn:Hr; [|discriminate].
  intros [= <-].
  pose proof (py_remove_elem _ _ _ Hr wf_nodes_nodup0) as Hel.
  constructor; simpl; auto; try discriminate.
  - eapply Forall_weaken_refs; [|exact wf_nodes_range0]. intros x Hx. apply Hel in Hx. tauto.
  - eapply Forall_weaken_refs; [|exact wf_arrows_range0].
    intros x Hx. apply list_elem_of_filter in Hx. tauto.
  - eapply py_remove_NoDup; eauto.
  - apply NoDup_filter. auto.
  - intros a Ha. destruct wf_exclusive0; congruence.
Qed.

Lemma wf_delete_selected_arrow c c' :
  wf c -> CanvasWidget.delete_selected_arrow c = CanvasWidget.Returned c' -> wf c'.
Proof.
  intros Hwf. pose proof Hwf as []. unfold CanvasWidget.delete_selected_arrow.
  destruct (CanvasWidget.selected_arrow c) as [sel|] eqn:Hsel; [|intros [= <-]; exact Hwf].
  destruct (py_remove sel (CanvasWidget.arrows c)) as [l|] eqn:Hr; [|discriminate].
  intros [= <-].
  pose proof (py_remove_elem _ _ _ Hr wf_arrows_nodup0) as Hel.
  constructor; simpl; auto; try discriminate.
  - eapply Forall_weaken_refs; [|exact wf_arrows_range0]. intros x Hx. apply Hel in Hx. tauto.
  - eapply py_remove_NoDup; eauto.
Qed.

(** ** Shape of the widget after the two loops of [load_diagram] *)

Lemma seq_snoc_shift (l : list nat) (a k : nat) :
  (l ++ [a]) ++ seq (a + 1) k = l ++ seq a (S k).
Proof. rewrite <- app_assoc. simpl. rewrite Nat.add_1_r. reflexivity. Qed.

Lemma with_nodes_appended_nil c : with_nodes_appended [] c = c.
Proof. destruct c. unfold with_nodes_appended. simpl. rewrite !app_nil_r. reflexivity. Qed.

Lemma with_nodes_appended_cons n new c :
  with_nodes_appended new (CanvasWidget.append_new_node n c) = with_nodes_appended (n :: new) c.
Proof.
  destruct c. unfold with_nodes_appended, CanvasWidget.append_new_node. simpl.
  rewrite length_app. simpl. rewrite seq_snoc_shift, <- app_assoc. reflexivity.
Qed.

Lemma with_arrows_appended_nil c : with_arrows_appended [] c = c.
Proof. destruct c. unfold with_arrows_appended. simpl. rewrite !app_nil_r. reflexivity. Qed.

Lemma with_arrows_appended_cons s e new c :
  with_arrows_appended new (CanvasWidget.append_new_arrow s e c)
  = with_arrows_appended (Arrow.init s e :: new) c.
Proof.
  destruct c. unfold with_arrows_appended, CanvasWidget.append_new_arrow. simpl.
  rewrite length_app. simpl. rewrite seq_snoc_shift, <- app_assoc. reflexivity.
Qed.

Lemma load_nodes_shape nds c :
  CanvasWidget.load_nodes nds c
  = with_nodes_appended (omap (node_of_dict (CanvasWidget.node_font c)) nds) c.
Proof.
  revert c. induction nds as [|nd nds IH]; intros c; simpl.
  - symmetry. apply with_nodes_appended_nil.
  - unfold node_of_dict at 1.
    destruct (String.eqb (nd_type nd) "node").
    + rewrite IH. apply with_nodes_appended_cons.
    + destruct (String.eqb (nd_type nd) "textnode").
      * rewrite IH. apply with_nodes_appended_cons.
      * apply IH.
Qed.

Lemma resolve_Some ns ad a :
  resolve ns ad = Some a <->
  exists s e, py_getitem ns (ad_start ad) = Some s /\ py_getitem ns (ad_end ad) = Some e /\
              a = Arrow.init s e.
Proof.
  unfold resolve. destruct (py_getitem ns (ad_start ad)) as [s|];
    [destruct (py_getitem ns (ad_end ad)) as [e|]|]; split.
  - intros [= <-]. eauto.
  - intros (s' & e' & [= <-] & [= <-] & ->). reflexivity.
  - discriminate.
  - intros (s' & e' & _ & ? & _). discriminate.
  - discriminate.
  - intros (s' & e' & ? & _). discriminate.
Qed.

(** [load_arrows] either resolves every entry, or stops at the first entry
    it cannot resolve, with the arrows of the entries before it appended. *)
Lemma load_arrows_outcome ads c :
  exists k new,
    (k <= length ads)%nat /\
    mapM (resolve (CanvasWidget.nodes c)) (take k ads) = Some new /\
    ((k = length ads /\
      CanvasWidget.load_arrows ads c = CanvasWidget.Returned (with_arrows_appended new c))
     \/ (exists bad, ads !! k = Some bad /\ resolve (CanvasWidget.nodes c) bad = None /\
          CanvasWidget.load_arrows ads c
          = CanvasWidget.Raised IndexError (with_arrows_appended new c))).
Proof.
  revert c. induction ads as [|ad ads IH]; intros c.
  - exists 0%nat, []. simpl. rewrite with_arrows_appended_nil. split; [lia|]. split; [done|].
    left. done.
  - destruct (resolve (CanvasWidget.nodes c) ad) as [a|] eqn:Hres.
    + apply resolve_Some in Hres as (s & e & Hs & He & ->).
      destruct (IH (CanvasWidget.append_new_arrow s e c)) as (k & new & Hk & Hm & Hout).
      exists (S k), (Arrow.init s e :: new). split; [simpl; lia|]. split.
      { change (take (S k) (ad :: ads)) with (ad :: take k ads).
        apply mapM_Some. constructor.
        - apply resolve_Some. eauto.
        - apply mapM_Some in Hm. exact Hm. }
      simpl. rewrite Hs, He. rewrite with_arrows_appended_cons in Hout.
      destruct Hout as [[-> Hl]|(bad & Hb & Hr & Hl)].
      * left. split; [done|exact Hl].
      * right. exists bad. simpl in Hr. auto.
    + exists 0%nat, []. simpl. rewrite with_arrows_appended_nil. split; [lia|]. split; [done|].
      right. exists ad. split; [done|]. split; [exact Hres|].
      unfold resolve in Hres.
      destruct (py_getitem (CanvasWidget.nodes c) (ad_start ad)); [|done].
      destruct (py_getitem (CanvasWidget.nodes c) (ad_end ad)); [discriminate|done].
Qed.

Lemma node_of_dict_sized f nds : Forall sized (omap (node_of_dict f) nds).
Proof.
  induction nds as [|nd nds IH]; simpl; [constructor|].
  unfold node_of_dict at 1.
  destruct (String.eqb (nd_type nd) "node"); simpl.
  - constructor; [apply init_sized|exact IH].
  - destruct (String.eqb (nd_type nd) "textnode"); simpl; [|exact IH].
    constructor; [apply init_sized|exact IH].
Qed.

Lemma seq_in_range (a k : nat) : Forall (fun r => (r < a + k)%nat) (seq a k).
Proof. apply Forall_forall. intros x Hx. apply elem_of_seq in Hx. lia. Qed.

Lemma wf_load_diagram data c c' :
  wf c -> CanvasWidget.load_diagram data c = CanvasWidget.Returned c' -> wf c'.
Proof.
  intros [] Hl. unfold CanvasWidget.load_diagram in Hl.
  rewrite load_nodes_shape in Hl.
  match type of Hl with context [CanvasWidget.load_arrows ?a ?c2] =>
    destruct (load_arrows_outcome a c2) as (k & new & _ & _ & [[_ Hr]|(bad & _ & _ & Hr)]);
    rewrite Hr in Hl end; [|discriminate].
  inversion Hl; subst. clear Hl Hr.
  constructor; simpl; try discriminate; auto.
  - rewrite length_app. apply seq_in_range.
  - rewrite length_app. apply seq_in_range.
  - apply NoDup_seq.
  - apply NoDup_seq.
  - apply Forall_app. split; [auto|]. apply node_of_dict_sized.
Qed.

Lemma wf_same c c' :
  wf c ->
  CanvasWidget.node_objs c' = CanvasWidget.node_objs c ->
  CanvasWidget.arrow_objs c' = CanvasWidget.arrow_objs c ->
  CanvasWidget.nodes c' = CanvasWidget.nodes c ->
  CanvasWidget.arrows c' = CanvasWidget.arrows c ->
  CanvasWidget.selected_node c' = CanvasWidget.selected_node c ->
  CanvasWidget.selected_arrow c' = CanvasWidget.selected_arrow c ->
  wf c'.
Proof.
  intros [] E1 E2 E3 E4 E5 E6. constructor; rewrite ?E1, ?E2, ?E3, ?E4, ?E5, ?E6; auto.
Qed.

Lemma wf_modify_node (g : Node.t -> Node.t) r c :
  wf c -> (forall n, sized n -> sized (g n)) ->
  wf (CanvasWidget.set_node_objs
        (<[r := g (CanvasWidget.node_at c r)]> (CanvasWidget.node_objs c)) c).
Proof.
  intros [] Hg. constructor; simpl; rewrite ?length_insert; auto.
  unfold CanvasWidget.node_at. apply Forall_modify; auto.
Qed.

Lemma wf_hide_editor c : wf c -> wf (CanvasWidget.hide_editor c).
Proof. intros Hwf. apply (wf_same c); auto. Qed.

Lemma wf_set_editing_node v c : wf c -> wf (CanvasWidget.set_editing_node v c).
Proof. intros Hwf. apply (wf_same c); auto. Qed.

Lemma wf_set_dragging_node v c : wf c -> wf (CanvasWidget.set_dragging_node v c).
Proof. intros Hwf. apply (wf_same c); auto. Qed.

Lemma wf_set_drag_offset v c : wf c -> wf (CanvasWidget.set_drag_offset v c).
Proof. intros Hwf. apply (wf_same c); auto. Qed.

Lemma wf_set_arrow_source_node v c : wf c -> wf (CanvasWidget.set_arrow_source_node v c).
Proof. intros Hwf. apply (wf_same c); auto. Qed.

Lemma wf_set_zoom v c : wf c -> wf (CanvasWidget.set_zoom v c).
Proof. intros Hwf. apply (wf_same c); auto. Qed.

Ltac wf_frame :=
  repeat match goal with
    | |- wf (CanvasWidget.hide_editor _) => apply wf_hide_editor
    | |- wf (CanvasWidget.set_editing_node _ _) => apply wf_set_editing_node
    | |- wf (CanvasWidget.set_dragging_node _ _) => apply wf_set_dragging_node
    | |- wf (CanvasWidget.set_drag_offset _ _) => apply wf_set_drag_offset
    | |- wf (CanvasWidget.set_arrow_source_node _ _) => apply wf_set_arrow_source_node
    | |- wf (CanvasWidget.set_zoom _ _) => apply wf_set_zoom
    end.

Lemma wf_mousePressEvent b p c : wf c -> wf (CanvasWidget.mousePressEvent b p c).
Proof.
  intros Hwf. unfold CanvasWidget.mousePressEvent.
  set (pos := CanvasWidget.scaled p (CanvasWidget._zoom c)).
  destruct b.
  - destruct (CanvasWidget.hit_arrow c pos) as [a|] eqn:Ha.
    + wf_frame. apply wf_select_arrow; [exact Hwf|].
      intros a' [= <-]. eapply hit_arrow_elem; eauto.
    + destruct (CanvasWidget.hit_node c pos) as [n|] eqn:Hn.
      * wf_frame. apply wf_select_node; [exact Hwf|].
        intros n' [= <-]. eapply hit_node_elem; eauto.
      * wf_frame. apply wf_select_arrow; [|discriminate].
        apply wf_select_node; [exact Hwf|discriminate].
  - destruct (CanvasWidget.hit_node c pos) as [n|] eqn:Hn.
    + destruct (CanvasWidget.arrow_source_node c) as [src|].
      * destruct (decide (src <> n)).
        -- wf_frame. apply wf_append_new_arrow. exact Hwf.
        -- wf_frame. exact Hwf.
      * wf_frame. exact Hwf.
    + destruct (CanvasWidget.arrow_source_node c); [wf_frame|]; exact Hwf.
  - exact Hwf.
Qed.

Lemma wf_handle ev c c' : wf c -> handle ev c = CanvasWidget.Returned c' -> wf c'.
Proof.
  intros Hwf. destruct ev; simpl.
  - intros [= <-]. apply wf_mousePressEvent, Hwf.
  - intros [= <-]. unfold CanvasWidget.mouseMoveEvent.
    destruct (CanvasWidget.dragging_node c) as [d|]; [|exact Hwf].
    wf_frame. apply wf_modify_node; [exact Hwf|]. intros n. apply set_xy_sized.
  - intros [= <-]. unfold CanvasWidget.mouseReleaseEvent. wf_frame. exact Hwf.
  - intros [= <-]. unfold CanvasWidget.mouseDoubleClickEvent.
    destruct (CanvasWidget.hit_node _ _); [wf_frame; exact Hwf|].
    apply wf_append_new_node; [exact Hwf|apply init_sized].
  - intros [= <-]. unfold CanvasWidget.finish_editing.
    destruct (CanvasWidget.editing_node c) as [e|]; [|exact Hwf].
    wf_frame. apply (wf_modify_node (fun n => Node.set_text n entered)); [exact Hwf|].
    intros n _. apply set_text_sized.
  - intros [= <-]. apply wf_append_new_node; [exact Hwf|apply init_sized].
  - intros [= <-]. apply wf_append_new_node; [exact Hwf|apply init_sized].
  - unfold MainWindow.delete_selected.
    destruct (CanvasWidget.selected_node c) eqn:Hs.
    + apply wf_delete_selected_node, Hwf.
    + destruct (CanvasWidget.selected_arrow c) eqn:Ha.
      * apply wf_delete_selected_arrow, Hwf.
      * intros [= <-]. exact Hwf.
  - apply wf_load_diagram, Hwf.
  - intros [= <-]. unfold CanvasWidget.zoom_in. wf_frame. exact Hwf.
  - intros [= <-]. unfold CanvasWidget.zoom_out. wf_frame. exact Hwf.
Qed.

Lemma reachable_wf f c : reachable f c -> wf c.
Proof.
  apply reachable_ind.
  - apply wf_init.
  - intros c0 ev c1 Hwf Hh. eapply wf_handle; eauto.
Qed.

(** C7: for every node, concept or text node, and every string, [set_text]
    stores the string and sets the width to the font's advance of the string
    plus 18 and the height to the font's line height plus 12; and in every
    reachable state every node object has the size of its current text. *)
Theorem set_text_size_current :
  (forall (n : Node.t) (s : string),
     Node.text (Node.set_text n s) = s /\
     Node.w (Node.set_text n s) = QFontMetrics.horizontalAdvance (Node.font n) s + 18 /\
     Node.h (Node.set_text n s) = QFontMetrics.height (Node.font n) + 12) /\
  (forall (f : QFontMetrics.t) (c : CanvasWidget.t),
     reachable f c ->
     forall r, (r < length (CanvasWidget.node_objs c))%nat ->
       Node.w (CanvasWidget.node_at c r)
       = QFontMetrics.horizontalAdvance (Node.font (CanvasWidget.node_at c r))
           (Node.text (CanvasWidget.node_at c r)) + 18 /\
       Node.h (CanvasWidget.node_at c r)
       = QFontMetrics.height (Node.font (CanvasWidget.node_at c r)) + 12).
Proof.
  split.
  - intros n s. unfold Node.set_text. destruct (Node.class n); simpl; auto.
  - intros f c Hr r Hlt. apply reachable_wf in Hr. destruct Hr.
    destruct (lookup_lt_is_Some_2 _ _ Hlt) as [n Hn].
    unfold CanvasWidget.node_at. rewrite (list_lookup_total_correct _ _ _ Hn).
    eapply (Forall_lookup_1 sized); eauto.
Qed.

Lemma set_text_size_current_witness :
  Node.w (CanvasWidget.node_at one_node 0)
  = QFontMetrics.horizontalAdvance (Node.font (CanvasWidget.node_at one_node 0))
      (Node.text (CanvasWidget.node_at one_node 0)) + 18 /\
  Node.h (CanvasWidget.node_at one_node 0)
  = QFontMetrics.height (Node.font (CanvasWidget.node_at one_node 0)) + 12.
Proof.
  apply (proj2 set_text_size_current mono_font one_node).
  - exists [ClickConcept]. reflexivity.
  - simpl. lia.
Defined.

(** ** Selection flags *)

Lemma is_Some_eq (m n : nat) : CanvasWidget.is_ m (Some n) = bool_decide (m = n).
Proof. unfold CanvasWidget.is_. apply bool_decide_ext. split; congruence. Qed.

Lemma mark_nodes_other f refs objs r :
  r ∉ refs -> CanvasWidget.mark_nodes f refs objs !!! r = objs !!! r.
Proof.
  revert objs. induction refs as [|a refs IH]; intros objs Hr; simpl; [done|].
  apply not_elem_of_cons in Hr as [Hne Hr].
  rewrite IH by exact Hr. apply list_lookup_total_insert_ne. congruence.
Qed.

Lemma mark_nodes_selected f refs objs r :
  r ∈ refs -> (r < length objs)%nat ->
  Node.selected (CanvasWidget.mark_nodes f refs objs !!! r) = f r.
Proof.
  revert objs. induction refs as [|a refs IH]; intros objs Hr Hlt; simpl.
  - apply elem_of_nil in Hr. contradiction.
  - destruct (decide (r ∈ refs)) as [Hin|Hnin].
    + apply IH; [exact Hin|]. rewrite length_insert. exact Hlt.
    + apply elem_of_cons in Hr as [->|Hr]; [|contradiction].
      rewrite mark_nodes_other by exact Hnin.
      rewrite list_lookup_total_insert_eq by exact Hlt. reflexivity.
Qed.

Lemma mark_arrows_other f refs objs r :
  r ∉ refs -> CanvasWidget.mark_arrows f refs objs !!! r = objs !!! r.
Proof.
  revert objs. induction refs as [|a refs IH]; intros objs Hr; simpl; [done|].
  apply not_elem_of_cons in Hr as [Hne Hr].
  rewrite IH by exact Hr. apply list_lookup_total_insert_ne. congruence.
Qed.

Lemma mark_arrows_selected f refs objs r :
  r ∈ refs -> (r < length objs)%nat ->
  Arrow.selected (CanvasWidget.mark_arrows f refs objs !!! r) = f r.
Proof.
  revert objs. induction refs as [|a refs IH]; intros objs Hr Hlt; simpl.
  - apply elem_of_nil in Hr. contradiction.
  - destruct (decide (r ∈ refs)) as [Hin|Hnin].
    + apply IH; [exact Hin|]. rewrite length_insert. exact Hlt.
    + apply elem_of_cons in Hr as [->|Hr]; [|contradiction].
      rewrite mark_arrows_other by exact Hnin.
      rewrite list_lookup_total_insert_eq by exact Hlt. reflexivity.
Qed.

Lemma filter_none {A} (P : A -> Prop) `{forall x, Decision (P x)} (l : list A) :
  (forall x, x ∈ l -> ~ P x) -> filter P l = [].
Proof.
  induction l as [|x l IH]; intros Hn; [done|].
  rewrite filter_cons. destruct (decide (P x)) as [Hp|_].
  - exfalso. apply (Hn x); [left|exact Hp].
  - apply IH. intros y Hy. apply Hn. right. exact Hy.
Qed.

Lemma filter_only {A} (P : A -> Prop) `{forall x, Decision (P x)} (l : list A) (a : A) :
  NoDup l -> a ∈ l -> (forall x, x ∈ l -> P x <-> x = a) -> filter P l = [a].
Proof.
  induction l as [|x l IH]; intros Hnd Ha Hp.
  - apply elem_of_nil in Ha. contradiction.
  - apply NoDup_cons in Hnd as [Hx Hnd]. rewrite filter_cons.
    destruct (decide (P x)) as [Hpx|Hnpx].
    + apply Hp in Hpx; [|left]. subst x. f_equal. apply filter_none.
      intros y Hy Hpy. apply Hp in Hpy; [|right; exact Hy]. subst. contradiction.
    + apply elem_of_cons in Ha as [->|Ha].
      * exfalso. apply Hnpx. apply Hp; [left|reflexivity].
      * apply IH; auto. intros y Hy. apply Hp. right. exact Hy.
Qed.

Lemma select_node_flags node c :
  wf c ->
  (forall m, m ∈ CanvasWidget.nodes c ->
     Node.selected (CanvasWidget.node_at (CanvasWidget.select_node node c) m)
     = CanvasWidget.is_ m node) /\
  (forall a, a ∈ CanvasWidget.arrows c ->
     Arrow.selected (CanvasWidget.arrow_at (CanvasWidget.select_node node c) a) = false).
Proof.
  intros []. unfold CanvasWidget.select_node, CanvasWidget.select_arrow,
    CanvasWidget.node_at, CanvasWidget.arrow_at. simpl. split.
  - intros m Hm. apply mark_nodes_selected; [exact Hm|].
    rewrite Forall_forall in wf_nodes_range0. auto.
  - intros a Ha. rewrite mark_arrows_selected; [reflexivity|exact Ha|].
    rewrite Forall_forall in wf_arrows_range0. auto.
Qed.

Lemma select_arrow_flags a c :
  wf c ->
  (forall b, b ∈ CanvasWidget.arrows c ->
     Arrow.selected (CanvasWidget.arrow_at (CanvasWidget.select_arrow (Some a) c) b)
     = bool_decide (b = a)) /\
  (forall m, m ∈ CanvasWidget.nodes c ->
     Node.selected (CanvasWidget.node_at (CanvasWidget.select_arrow (Some a) c) m) = false).
Proof.
  intros []. unfold CanvasWidget.select_arrow, CanvasWidget.node_at, CanvasWidget.arrow_at.
  simpl. split.
  - intros b Hb. rewrite mark_arrows_selected; [apply is_Some_eq|exact Hb|].
    rewrite Forall_forall in wf_arrows_range0. auto.
  - intros m Hm. rewrite mark_nodes_selected; [reflexivity|exact Hm|].
    rewrite Forall_forall in wf_nodes_range0. auto.
Qed.

Lemma select_arrow_None_flags c :
  wf c ->
  (forall b, b ∈ CanvasWidget.arrows c ->
     Arrow.selected (CanvasWidget.arrow_at (CanvasWidget.select_arrow None c) b) = false) /\
  (forall m, CanvasWidget.node_at (CanvasWidget.select_arrow None c) m
             = CanvasWidget.node_at c m).
Proof.
  intros []. unfold CanvasWidget.select_arrow, CanvasWidget.node_at, CanvasWidget.arrow_at.
  simpl. split; [|done].
  intros b Hb. rewrite mark_arrows_selected; [reflexivity|exact Hb|].
  rewrite Forall_forall in wf_arrows_range0. auto.
Qed.

Lemma selected_count_one_node c n :
  NoDup (CanvasWidget.nodes c) -> n ∈ CanvasWidget.nodes c ->
  (forall m, m ∈ CanvasWidget.nodes c ->
     Node.selected (CanvasWidget.node_at c m) = bool_decide (m = n)) ->
  (forall a, a ∈ CanvasWidget.arrows c ->
     Arrow.selected (CanvasWidget.arrow_at c a) = false) ->
  selected_count c = 1%nat.
Proof.
  intros Hnd Hn Hnodes Harrows. unfold selected_count.
  rewrite (filter_only _ (CanvasWidget.nodes c) n Hnd Hn).
  - rewrite filter_none; [reflexivity|]. intros a Ha. rewrite (Harrows a Ha). discriminate.
  - intros m Hm. rewrite (Hnodes m Hm). apply bool_decide_eq_true.
Qed.

Lemma selected_count_one_arrow c a :
  NoDup (CanvasWidget.arrows c) -> a ∈ CanvasWidget.arrows c ->
  (forall b, b ∈ CanvasWidget.arrows c ->
     Arrow.selected (CanvasWidget.arrow_at c b) = bool_decide (b = a)) ->
  (forall m, m ∈ CanvasWidget.nodes c ->
     Node.selected (CanvasWidget.node_at c m) = false) ->
  selected_count c = 1%nat.
Proof.
  intros Hnd Ha Harrows Hnodes. unfold selected_count.
  rewrite (filter_only _ (CanvasWidget.arrows c) a Hnd Ha).
  - rewrite filter_none; [reflexivity|]. intros m Hm. rewrite (Hnodes m Hm). discriminate.
  - intros b Hb. rewrite (Harrows b Hb). apply bool_decide_eq_true.
Qed.

Lemma selected_count_none c :
  (forall m, m ∈ CanvasWidget.nodes c ->
     Node.selected (CanvasWidget.node_at c m) = false) ->
  (forall a, a ∈ CanvasWidget.arrows c ->
     Arrow.selected (CanvasWidget.arrow_at c a) = false) ->
  selected_count c = 0%nat.
Proof.
  intros Hnodes Harrows. unfold selected_count.
  rewrite !filter_none; [reflexivity| |].
  - intros a Ha. rewrite (Harrows a Ha). discriminate.
  - intros m Hm. rewrite (Hnodes m Hm). discriminate.
Qed.

(** C5: in a reachable state, selecting a node of the document sets the
    flag of that node and clears the flag of every other node and of every
    arrow; selecting an arrow of the document sets its flag and clears the flag
    of every other arrow and of every node; clearing the selection clears every
    flag.  After each of them, and after every press of the left button, at
    most one entity of the two collections is flagged. *)
Theorem selection_exclusive (f : QFontMetrics.t) (c : CanvasWidget.t) :
  reachable f c ->
  (forall n, n ∈ CanvasWidget.nodes c ->
     let c' := CanvasWidget.select_node (Some n) c in
     (forall m, m ∈ CanvasWidget.nodes c' ->
        Node.selected (CanvasWidget.node_at c' m) = bool_decide (m = n)) /\
     (forall a, a ∈ CanvasWidget.arrows c' ->
        Arrow.selected (CanvasWidget.arrow_at c' a) = false) /\
     selected_count c' = 1%nat) /\
  (forall a, a ∈ CanvasWidget.arrows c ->
     let c' := CanvasWidget.select_arrow (Some a) c in
     (forall b, b ∈ CanvasWidget.arrows c' ->
        Arrow.selected (CanvasWidget.arrow_at c' b) = bool_decide (b = a)) /\
     (forall m, m ∈ CanvasWidget.nodes c' ->
        Node.selected (CanvasWidget.node_at c' m) = false) /\
     selected_count c' = 1%nat) /\
  (let c' := CanvasWidget.select_arrow None (CanvasWidget.select_node None c) in
   (forall m, m ∈ CanvasWidget.nodes c' ->
      Node.selected (CanvasWidget.node_at c' m) = false) /\
   (forall a, a ∈ CanvasWidget.arrows c' ->
      Arrow.selected (CanvasWidget.arrow_at c' a) = false) /\
   selected_count c' = 0%nat) /\
  (forall p, (selected_count (CanvasWidget.mousePressEvent LeftButton p c) <= 1)%nat).
Proof.
  intros Hr. apply reachable_wf in Hr. pose proof Hr as Hwf. destruct Hr.
  assert (Hsel : forall n, n ∈ CanvasWidget.nodes c ->
     let c' := CanvasWidget.select_node (Some n) c in
     (forall m, m ∈ CanvasWidget.nodes c' ->
        Node.selected (CanvasWidget.node_at c' m) = bool_decide (m = n)) /\
     (forall a, a ∈ CanvasWidget.arrows c' ->
        Arrow.selected (CanvasWidget.arrow_at c' a) = false) /\
     selected_count c' = 1%nat).
  { intros n Hn c'. destruct (select_node_flags (Some n) c Hwf) as [Hnodes Harrows].
    assert (Hn' : forall m, m ∈ CanvasWidget.nodes c' ->
              Node.selected (CanvasWidget.node_at c' m) = bool_decide (m = n)).
    { intros m Hm. unfold c'. rewrite Hnodes by exact Hm. apply is_Some_eq. }
    split; [exact Hn'|]. split; [exact Harrows|].
    apply (selected_count_one_node c' n); auto. }
  assert (Harr : forall a, a ∈ CanvasWidget.arrows c ->
     let c' := CanvasWidget.select_arrow (Some a) c in
     (forall b, b ∈ CanvasWidget.arrows c' ->
        Arrow.selected (CanvasWidget.arrow_at c' b) = bool_decide (b = a)) /\
     (forall m, m ∈ CanvasWidget.nodes c' ->
        Node.selected (CanvasWidget.node_at c' m) = false) /\
     selected_count c' = 1%nat).
  { intros a Ha c'. destruct (select_arrow_flags a c Hwf) as [Harrows Hnodes].
    split; [exact Harrows|]. split; [exact Hnodes|].
    apply (selected_count_one_arrow c' a); auto. }
  assert (Hclr : let c' := CanvasWidget.select_arrow None (CanvasWidget.select_node None c) in
   (forall m, m ∈ CanvasWidget.nodes c' ->
      Node.selected (CanvasWidget.node_at c' m) = false) /\
   (forall a, a ∈ CanvasWidget.arrows c' ->
      Arrow.selected (CanvasWidget.arrow_at c' a) = false) /\
   selected_count c' = 0%nat).
  { intros c'.
    assert (Hwf1 : wf (CanvasWidget.select_node None c))
      by (apply wf_select_node; [exact Hwf|discriminate]).
    destruct (select_node_flags None c Hwf) as [Hnodes _].
    destruct (select_arrow_None_flags _ Hwf1) as [Harrows Hsame].
    assert (Hn' : forall m, m ∈ CanvasWidget.nodes c' ->
              Node.selected (CanvasWidget.node_at c' m) = false).
    { intros m Hm. unfold c'. rewrite Hsame. rewrite Hnodes by exact Hm. reflexivity. }
    split; [exact Hn'|]. split; [exact Harrows|].
    apply selected_count_none; auto. }
  split; [exact Hsel|]. split; [exact Harr|]. split; [exact Hclr|].
  intros p. unfold CanvasWidget.mousePressEvent.
  set (pos := CanvasWidget.scaled p (CanvasWidget._zoom c)).
  destruct (CanvasWidget.hit_arrow c pos) as [a|] eqn:Ha.
  - apply hit_arrow_elem in Ha. destruct (Harr a Ha) as (_ & _ & Hc).
    change (selected_count (CanvasWidget.hide_editor (CanvasWidget.select_arrow (Some a) c)))
      with (selected_count (CanvasWidget.select_arrow (Some a) c)).
    rewrite Hc. lia.
  - destruct (CanvasWidget.hit_node c pos) as [n|] eqn:Hn.
    + apply hit_node_elem in Hn. destruct (Hsel n Hn) as (_ & _ & Hc).
      match goal with |- (selected_count ?s <= 1)%nat =>
        change (selected_count s) with (selected_count (CanvasWidget.select_node (Some n) c))
      end.
      rewrite Hc. lia.
    + destruct Hclr as (_ & _ & Hc).
      match goal with |- (selected_count ?s <= 1)%nat =>
        change (selected_count s)
          with (selected_count (CanvasWidget.select_arrow None (CanvasWidget.select_node None c)))
      end.
      rewrite Hc. lia.
Qed.

(** ** The linking gesture *)

(** C6: when the right button is pressed on the node that is already the
    pending source, the arrow collection and the arrow objects are unchanged
    (same count before and after); when it is pressed on another node, one new
    arrow from the pending source to that node is appended. *)
Theorem self_link_is_noop (c : CanvasWidget.t) (p : QPointF) (n : nat) :
  CanvasWidget.hit_node c (CanvasWidget.scaled p (CanvasWidget._zoom c)) = Some n ->
  (CanvasWidget.arrow_source_node c = Some n ->
     let c' := CanvasWidget.mousePressEvent RightButton p c in
     CanvasWidget.arrows c' = CanvasWidget.arrows c /\
     CanvasWidget.arrow_objs c' = CanvasWidget.arrow_objs c /\
     length (CanvasWidget.arrows c') = length (CanvasWidget.arrows c)) /\
  (forall src, CanvasWidget.arrow_source_node c = Some src -> src <> n ->
     let c' := CanvasWidget.mousePressEvent RightButton p c in
     CanvasWidget.arrows c' = CanvasWidget.arrows c ++ [length (CanvasWidget.arrow_objs c)] /\
     CanvasWidget.arrow_at c' (length (CanvasWidget.arrow_objs c)) = Arrow.mk src n false /\
     length (CanvasWidget.arrows c') = S (length (CanvasWidget.arrows c))).
Proof.
  intros Hhit. split.
  - intros Hsrc c'. unfold c', CanvasWidget.mousePressEvent. rewrite Hhit, Hsrc.
    destruct (decide (n <> n)) as [Hne|_]; [congruence|]. simpl. auto.
  - intros src Hsrc Hne c'. unfold c', CanvasWidget.mousePressEvent. rewrite Hhit, Hsrc.
    destruct (decide (src <> n)) as [_|Heq]; [|contradiction].
    unfold CanvasWidget.arrow_at. simpl. split; [reflexivity|]. split.
    + apply list_lookup_total_middle. reflexivity.
    + rewrite length_app. simpl. lia.
Qed.

Lemma self_link_is_noop_witness :
  CanvasWidget.arrows
    (CanvasWidget.mousePressEvent RightButton (at_ 25 25)
       (CanvasWidget.mousePressEvent RightButton (at_ 25 25) proposition))
  = CanvasWidget.arrows (CanvasWidget.mousePressEvent RightButton (at_ 25 25) proposition) /\
  CanvasWidget.arrow_objs
    (CanvasWidget.mousePressEvent RightButton (at_ 25 25)
       (CanvasWidget.mousePressEvent RightButton (at_ 25 25) proposition))
  = CanvasWidget.arrow_objs (CanvasWidget.mousePressEvent RightButton (at_ 25 25) proposition) /\
  length (CanvasWidget.arrows
    (CanvasWidget.mousePressEvent RightButton (at_ 25 25)
       (CanvasWidget.mousePressEvent RightButton (at_ 25 25) proposition)))
  = length (CanvasWidget.arrows
              (CanvasWidget.mousePressEvent RightButton (at_ 25 25) proposition)).
Proof.
  apply (proj1 (self_link_is_noop
                  (CanvasWidget.mousePressEvent RightButton (at_ 25 25) proposition)
                  (at_ 25 25) 0%nat ltac:(vm_compute; reflexivity))).
  vm_compute. reflexivity.
Defined.



Lemma filter_ext_elem {A} (P Q : A -> Prop) `{forall x, Decision (P x)} `{forall x, Decision (Q x)}
    (l : list A) :
  (forall x, x ∈ l -> P x <-> Q x) -> filter P l = filter Q l.
Proof.
  induction l as [|x l IH]; intros Hpq; [done|].
  rewrite !filter_cons.
  assert (Hx : P x <-> Q x) by (apply Hpq; left).
  assert (Hl : filter P l = filter Q l) by (apply IH; intros y Hy; apply Hpq; right; exact Hy).
  destruct (decide (P x)), (decide (Q x)); try tauto; congruence.
Qed.





(** ** Deleting a node *)

(** C4: in a reachable state whose selected node is [n], the Delete button is
    handled in one step that returns; in the state it leaves, [n] is no longer
    in the node collection, the other nodes are all kept, the arrow collection
    is the old one without the arrows that start or end at [n], and no
    remaining arrow starts or ends at [n]. *)
Theorem delete_node_cascades (f : QFontMetrics.t) (c : CanvasWidget.t) (n : nat) :
  reachable f c ->
  CanvasWidget.selected_node c = Some n ->
  exists c',
    handle ClickDelete c = CanvasWidget.Returned c' /\
    CanvasWidget.delete_selected_node c = CanvasWidget.Returned c' /\
    (n ∉ CanvasWidget.nodes c') /\
    (forall m, m ∈ CanvasWidget.nodes c' <-> m ∈ CanvasWidget.nodes c /\ m <> n) /\
    (forall a, a ∈ CanvasWidget.arrows c' <->
       a ∈ CanvasWidget.arrows c /\
       Arrow.start_node (CanvasWidget.arrow_at c a) <> n /\
       Arrow.end_node (CanvasWidget.arrow_at c a) <> n) /\
    (forall a, a ∈ CanvasWidget.arrows c' ->
       Arrow.start_node (CanvasWidget.arrow_at c' a) <> n /\
       Arrow.end_node (CanvasWidget.arrow_at c' a) <> n).
Proof.
  intros Hr Hsel. apply reachable_wf in Hr. destruct Hr.
  pose proof (wf_selected_node0 n Hsel) as Hin.
  destruct (py_remove_is_Some n _ Hin) as [ns Hns].
  pose proof (py_remove_elem _ _ _ Hns wf_nodes_nodup0) as Hel.
  exists (CanvasWidget.set_selected_node None
            (CanvasWidget.set_nodes ns
               (CanvasWidget.set_arrows (CanvasWidget.arrows_not_touching n c) c))).
  assert (Hdel : CanvasWidget.delete_selected_node c
                 = CanvasWidget.Returned
                     (CanvasWidget.set_selected_node None
                        (CanvasWidget.set_nodes ns
                           (CanvasWidget.set_arrows (CanvasWidget.arrows_not_touching n c) c)))).
  { unfold CanvasWidget.delete_selected_node. rewrite Hsel. simpl. rewrite Hns. reflexivity. }
  split.
  { simpl. unfold MainWindow.delete_selected. rewrite Hsel. exact Hdel. }
  split; [exact Hdel|]. simpl.
  assert (Harr : forall a, a ∈ CanvasWidget.arrows_not_touching n c <->
       a ∈ CanvasWidget.arrows c /\
       Arrow.start_node (CanvasWidget.arrow_at c a) <> n /\
       Arrow.end_node (CanvasWidget.arrow_at c a) <> n).
  { intros a. unfold CanvasWidget.arrows_not_touching. rewrite list_elem_of_filter. tauto. }
  split; [|split; [exact Hel|split; [exact Harr|]]].
  - intros Hn. apply Hel in Hn. tauto.
  - intros a Ha. apply Harr in Ha. exact (proj2 Ha).
Qed.

Lemma delete_node_cascades_witness :
  exists c',
    handle ClickDelete (CanvasWidget.mousePressEvent LeftButton (at_ 125 25) proposition)
    = CanvasWidget.Returned c' /\
    CanvasWidget.delete_selected_node
      (CanvasWidget.mousePressEvent LeftButton (at_ 125 25) proposition)
    = CanvasWidget.Returned c' /\
    (1%nat ∉ CanvasWidget.nodes c') /\
    (forall m, m ∈ CanvasWidget.nodes c' <->
       m ∈ CanvasWidget.nodes (CanvasWidget.mousePressEvent LeftButton (at_ 125 25) proposition)
       /\ m <> 1%nat) /\
    (forall a, a ∈ CanvasWidget.arrows c' <->
       a ∈ CanvasWidget.arrows (CanvasWidget.mousePressEvent LeftButton (at_ 125 25) proposition)
       /\ Arrow.start_node
            (CanvasWidget.arrow_at
               (CanvasWidget.mousePressEvent LeftButton (at_ 125 25) proposition) a) <> 1%nat
       /\ Arrow.end_node
            (CanvasWidget.arrow_at
               (CanvasWidget.mousePressEvent LeftButton (at_ 125 25) proposition) a) <> 1%nat) /\
    (forall a, a ∈ CanvasWidget.arrows c' ->
       Arrow.start_node (CanvasWidget.arrow_at c' a) <> 1%nat /\
       Arrow.end_node (CanvasWidget.arrow_at c' a) <> 1%nat).
Proof.
  apply (delete_node_cascades mono_font
           (CanvasWidget.mousePressEvent LeftButton (at_ 125 25) proposition) 1%nat).
  - exists (proposition_events ++ [MousePress LeftButton (at_ 125 25)]).
    vm_compute. reflexivity.
  - vm_compute. reflexivity.
Defined.

Lemma selection_exclusive_witness :
  (selected_count (CanvasWidget.mousePressEvent LeftButton (at_ 25 25) proposition) <= 1)%nat.
Proof.
  apply (selection_exclusive mono_font proposition).
  exists proposition_events. vm_compute. reflexivity.
Defined.

(** ** Export of propositions *)




(** The scenario of the specification: concept, text, concept, chained by two
    arrows, with the generated texts. *)
Example export_proposition :
  CanvasWidget.export_node_textnode_node_tuples proposition
  = ["Node 1, Text 1, Node 2" +:+ CanvasWidget.newline].
Proof. vm_compute. reflexivity. Qed.

(** ** Saving and loading *)

Lemma enumerate_into_notin l idx (m : gmap nat nat) r :
  r ∉ l -> CanvasWidget.enumerate_into idx l m !! r = m !! r.
Proof.
  revert idx m. induction l as [|a l IH]; intros idx m Hr; simpl; [done|].
  apply not_elem_of_cons in Hr as [Hne Hr].
  rewrite IH by exact Hr. apply lookup_insert_ne. congruence.
Qed.

(** A key of [node_indices] is mapped to a position of the list that holds
    it. *)
Lemma enumerate_into_Some l idx (m : gmap nat nat) r i :
  CanvasWidget.enumerate_into idx l m !! r = Some i ->
  (r ∈ l /\ (idx <= i < idx + length l)%nat /\ l !! (i - idx)%nat = Some r)
  \/ ((r ∉ l) /\ m !! r = Some i).
Proof.
  revert idx m. induction l as [|a l IH]; intros idx m Hl; simpl in Hl.
  - right. split; [apply not_elem_of_nil|exact Hl].
  - apply IH in Hl as [(Hin & Hi & Hlk)|(Hnin & Hm)].
    + left. split; [right; exact Hin|]. split; [simpl; lia|].
      replace (i - idx)%nat with (S (i - S idx)) by lia. exact Hlk.
    + destruct (decide (a = r)) as [->|Hne].
      * rewrite lookup_insert_eq in Hm. inversion Hm; subst. left.
        split; [left|]. split; [simpl; lia|]. rewrite Nat.sub_diag. reflexivity.
      * rewrite lookup_insert_ne in Hm by exact Hne. right. split; [|exact Hm].
        intros Hin. apply elem_of_cons in Hin as [->|Hin]; [congruence|contradiction].
Qed.

Lemma enumerate_into_elem l idx (m : gmap nat nat) r :
  r ∈ l -> is_Some (CanvasWidget.enumerate_into idx l m !! r).
Proof.
  revert idx m. induction l as [|a l IH]; intros idx m Hr; simpl.
  - apply elem_of_nil in Hr. contradiction.
  - destruct (decide (r ∈ l)) as [Hin|Hnin]; [apply IH, Hin|].
    apply elem_of_cons in Hr as [->|Hr]; [|contradiction].
    rewrite enumerate_into_notin by exact Hnin. rewrite lookup_insert_eq. eauto.
Qed.

(** In a list without repetition, the element at position [i] is mapped to
    [i]. *)
Lemma enumerate_into_NoDup l idx (m : gmap nat nat) r i :
  NoDup l -> l !! i = Some r -> CanvasWidget.enumerate_into idx l m !! r = Some (idx + i)%nat.
Proof.
  revert idx m i. induction l as [|a l IH]; intros idx m i Hnd Hlk; [done|].
  apply NoDup_cons in Hnd as [Ha Hnd]. destruct i as [|i]; simpl in *.
  - inversion Hlk; subst. rewrite enumerate_into_notin by exact Ha.
    rewrite lookup_insert_eq. f_equal. lia.
  - rewrite (IH (S idx) _ i Hnd Hlk). f_equal. lia.
Qed.

Lemma py_getitem_nat {A} (l : list A) (i : nat) :
  (i < length l)%nat -> py_getitem l (Z.of_nat i) = l !! i.
Proof.
  intros Hi. unfold py_getitem.
  destruct (decide (0 <= Z.of_nat i < Z.of_nat (length l))) as [_|Hn]; [|lia].
  rewrite Nat2Z.id. reflexivity.
Qed.

(** [l[i]] raises IndexError exactly for [i] outside [-len(l), len(l)). *)
Lemma py_getitem_None {A} (l : list A) (i : Z) :
  py_getitem l i = None <-> ~ (- Z.of_nat (length l) <= i < Z.of_nat (length l)).
Proof.
  unfold py_getitem.
  destruct (decide (0 <= i < Z.of_nat (length l))) as [H1|H1].
  - split; [|lia]. intros Hn. apply lookup_ge_None in Hn. lia.
  - destruct (decide (- Z.of_nat (length l) <= i < 0)) as [H2|H2].
    + split; [|lia]. intros Hn. apply lookup_ge_None in Hn. lia.
    + split; [lia|done].
Qed.

(** The dictionaries [save_diagram] writes for the arrows hold positions of
    the node list. *)
Lemma to_dict_indices c a ad :
  Arrow.to_dict (CanvasWidget.arrow_at c a) (CanvasWidget.node_indices c) = Some ad ->
  indices_below (length (CanvasWidget.nodes c)) ad.
Proof.
  unfold Arrow.to_dict, CanvasWidget.node_indices.
  destruct (CanvasWidget.enumerate_into 0 _ ∅ !! Arrow.start_node _) as [i|] eqn:Ei; [|done].
  destruct (CanvasWidget.enumerate_into 0 _ ∅ !! Arrow.end_node _) as [j|] eqn:Ej; [|done].
  intros [= <-].
  apply enumerate_into_Some in Ei as [(_ & Hi & _)|(_ & Hm)];
    [|rewrite lookup_empty in Hm; discriminate].
  apply enumerate_into_Some in Ej as [(_ & Hj & _)|(_ & Hm)];
    [|rewrite lookup_empty in Hm; discriminate].
  exists i, j. repeat split; lia.
Qed.

(** [save_diagram] returns when the endpoints of all arrows are present. *)
Lemma save_diagram_returns c :
  endpoints_present c -> exists d, CanvasWidget.save_diagram c = CanvasWidget.Dumped d.
Proof.
  intros Hok. unfold CanvasWidget.save_diagram.
  destruct (mapM _ (CanvasWidget.arrows c)) as [ads|] eqn:Em; [eauto|].
  exfalso. apply mapM_None_1 in Em. apply Exists_exists in Em as (a & Ha & Hn).
  destruct (Hok a Ha) as [Hs He].
  destruct (enumerate_into_elem _ 0 ∅ _ Hs) as [i Hi].
  destruct (enumerate_into_elem _ 0 ∅ _ He) as [j Hj].
  unfold Arrow.to_dict, CanvasWidget.node_indices in Hn. rewrite Hi, Hj in Hn. discriminate.
Qed.

Lemma node_of_dict_to_dict f n : node_of_dict f (Node.to_dict n) = Some (rebuilt f n).
Proof. unfold node_of_dict, Node.to_dict, rebuilt. destruct n as [[] ? ? ? ? ? ? ?]; reflexivity. Qed.

Lemma to_dict_rebuilt f n : Node.to_dict (rebuilt f n) = Node.to_dict n.
Proof. unfold Node.to_dict, rebuilt. destruct n as [[] ? ? ? ? ? ? ?]; reflexivity. Qed.

Lemma omap_to_dict f (ns : list Node.t) :
  omap (node_of_dict f) (map Node.to_dict ns) = map (rebuilt f) ns.
Proof.
  induction ns as [|n ns IH]; [done|].
  simpl. rewrite node_of_dict_to_dict. f_equal. exact IH.
Qed.

(** Reading the arena at the references of freshly appended objects gives
    back these objects. *)
Lemma map_seq_lookup_app {A} `{Inhabited A} (l1 l2 : list A) :
  map (fun r => (l1 ++ l2) !!! r) (seq (length l1) (length l2)) = l2.
Proof.
  revert l1. induction l2 as [|x l2 IH]; intros l1; [done|].
  simpl. rewrite list_lookup_total_middle by reflexivity. f_equal.
  specialize (IH (l1 ++ [x])). rewrite length_app, <- app_assoc in IH. simpl in IH.
  rewrite Nat.add_1_r in IH. exact IH.
Qed.

Lemma resolve_below (base n : nat) (ad : arrow_dict) :
  indices_below n ad ->
  exists i j, (i < n)%nat /\ (j < n)%nat /\ ad = mk_arrow_dict (Z.of_nat i) (Z.of_nat j) /\
    resolve (seq base n) ad = Some (Arrow.init (base + i) (base + j)).
Proof.
  intros (i & j & Hi & Hj & ->). exists i, j. repeat split; auto.
  unfold resolve. simpl.
  rewrite !py_getitem_nat by (rewrite length_seq; lia).
  rewrite !lookup_seq_lt by lia. reflexivity.
Qed.

(** Saving a widget whose collections were just rebuilt from [ns] and
    [ads] writes [ns] and [ads] again. *)
Lemma save_of_built c' objs0 aobjs0 (ns : list Node.t) f ads new :
  CanvasWidget.node_objs c' = objs0 ++ map (rebuilt f) ns ->
  CanvasWidget.nodes c' = seq (length objs0) (length ns) ->
  CanvasWidget.arrow_objs c' = aobjs0 ++ new ->
  CanvasWidget.arrows c' = seq (length aobjs0) (length new) ->
  Forall2 (fun ad ar => resolve (CanvasWidget.nodes c') ad = Some ar) ads new ->
  Forall (indices_below (length ns)) ads ->
  CanvasWidget.save_diagram c'
  = CanvasWidget.Dumped (mk_diagram_data (map Node.to_dict ns) ads).
Proof.
  intros En Enl Ea Eal Hres Hbelow. unfold CanvasWidget.save_diagram.
  assert (Hnodes : map (fun r => Node.to_dict (CanvasWidget.node_at c' r)) (CanvasWidget.nodes c')
                   = map Node.to_dict ns).
  { unfold CanvasWidget.node_at. rewrite En, Enl.
    rewrite <- (length_map (rebuilt f) ns).
    rewrite <- (map_map (fun r => (objs0 ++ map (rebuilt f) ns) !!! r) Node.to_dict).
    rewrite map_seq_lookup_app, map_map.
    apply map_ext. intros n. apply to_dict_rebuilt. }
  rewrite Hnodes.
  assert (Harrows : mapM (fun a => Arrow.to_dict (CanvasWidget.arrow_at c' a)
                                     (CanvasWidget.node_indices c')) (CanvasWidget.arrows c')
                    = Some ads).
  { apply mapM_Some. apply Forall2_same_length_lookup_2.
    - rewrite Eal, length_seq. symmetry. eapply Forall2_length; eauto.
    - intros i a ad Hia Hiad. rewrite Eal in Hia. apply lookup_seq in Hia as [-> Hi].
      destruct (Forall2_lookup_l _ _ _ _ _ Hres Hiad) as (ar & Hiar & Har).
      rewrite Forall_forall in Hbelow.
      destruct (resolve_below (length objs0) (length ns) ad) as (s & e & Hs & He & -> & Hr).
      { apply Hbelow. eapply list_elem_of_lookup_2; eauto. }
      rewrite Enl, Hr in Har. inversion Har; subst ar.
      unfold CanvasWidget.arrow_at. rewrite Ea, lookup_total_app_r by lia.
      replace (length aobjs0 + i - length aobjs0)%nat with i by lia.
      rewrite (list_lookup_total_correct _ _ _ Hiar).
      unfold Arrow.to_dict, CanvasWidget.node_indices. simpl. rewrite Enl.
      rewrite (enumerate_into_NoDup _ 0 ∅ (length objs0 + s) s (NoDup_seq _ _))
        by (apply lookup_seq_lt; exact Hs).
      rewrite (enumerate_into_NoDup _ 0 ∅ (length objs0 + e) e (NoDup_seq _ _))
        by (apply lookup_seq_lt; exact He).
      reflexivity. }
  rewrite Harrows. reflexivity.
Qed.

(** Loading what was saved from [ns] and [ads] returns, and saving the
    result writes the same value. *)
Lemma load_saved (ns : list Node.t) (ads : list arrow_dict) (c0 : CanvasWidget.t) :
  Forall (indices_below (length ns)) ads ->
  exists c',
    CanvasWidget.load_diagram (mk_diagram_data (map Node.to_dict ns) ads) c0
    = CanvasWidget.Returned c' /\
    CanvasWidget.save_diagram c'
    = CanvasWidget.Dumped (mk_diagram_data (map Node.to_dict ns) ads).
Proof.
  intros Hbelow. unfold CanvasWidget.load_diagram. simpl.
  rewrite load_nodes_shape. simpl. rewrite omap_to_dict.
  set (c2 := with_nodes_appended _ _).
  assert (Hn2 : CanvasWidget.nodes c2
                = seq (length (CanvasWidget.node_objs c0)) (length ns)).
  { unfold c2. simpl. rewrite length_map. reflexivity. }
  destruct (load_arrows_outcome ads c2) as (k & new & Hk & Hm & [[-> Hl]|(bad & Hb & Hr & _)]).
  - rewrite Hl. eexists. split; [reflexivity|].
    rewrite take_ge in Hm by lia. apply mapM_Some in Hm.
    eapply (save_of_built _ (CanvasWidget.node_objs c0) (CanvasWidget.arrow_objs c0)
              ns (CanvasWidget.node_font c0) ads new).
    + reflexivity.
    + exact Hn2.
    + reflexivity.
    + reflexivity.
    + exact Hm.
    + exact Hbelow.
  - exfalso. rewrite Forall_forall in Hbelow.
    destruct (resolve_below (length (CanvasWidget.node_objs c0)) (length ns) bad)
      as (s & e & _ & _ & _ & Hres).
    { apply Hbelow. eapply list_elem_of_lookup_2; eauto. }
    rewrite Hn2 in Hr. congruence.
Qed.

(** C3: for every document whose arrows have both endpoints in the node
    collection, [save_diagram] returns a value; loading that value, into any
    widget, returns, and saving again gives the same value: same node
    dictionaries (type, x, y, text) in the same order and same pairs of arrow
    indices. *)
Theorem save_load_save (c : CanvasWidget.t) :
  endpoints_present c ->
  exists d,
    CanvasWidget.save_diagram c = CanvasWidget.Dumped d /\
    forall c0, exists c',
      CanvasWidget.load_diagram d c0 = CanvasWidget.Returned c' /\
      CanvasWidget.save_diagram c' = CanvasWidget.Dumped d.
Proof.
  intros Hok. destruct (save_diagram_returns c Hok) as [d Hd].
  exists d. split; [exact Hd|]. intros c0.
  unfold CanvasWidget.save_diagram in Hd.
  destruct (mapM _ (CanvasWidget.arrows c)) as [ads|] eqn:Em; [|discriminate].
  inversion Hd; subst d. clear Hd.
  rewrite <- (map_map (CanvasWidget.node_at c) Node.to_dict).
  apply load_saved. rewrite length_map.
  apply mapM_Some in Em. apply Forall_forall. intros ad Had.
  apply list_elem_of_lookup_1 in Had as [i Hi].
  destruct (Forall2_lookup_r _ _ _ _ _ Em Hi) as (a & _ & Ha).
  eapply to_dict_indices. exact Ha.
Qed.

Lemma save_load_save_witness :
  exists d,
    CanvasWidget.save_diagram proposition = CanvasWidget.Dumped d /\
    forall c0, exists c',
      CanvasWidget.load_diagram d c0 = CanvasWidget.Returned c' /\
      CanvasWidget.save_diagram c' = CanvasWidget.Dumped d.
Proof.
  apply (save_load_save proposition).
  intros a Ha. vm_compute in Ha.
  apply elem_of_cons in Ha as [->|Ha]; [vm_compute; split; set_solver|].
  apply elem_of_cons in Ha as [->|Ha]; [vm_compute; split; set_solver|].
  apply elem_of_nil in Ha. contradiction.
Defined.

(** ** Loading a file with an index out of range *)

Lemma node_count_built f data :
  length (omap (node_of_dict f) (data_nodes data)) = node_count data.
Proof.
  unfold node_count. induction (data_nodes data) as [|nd nds IH]; [done|].
  simpl. unfold node_of_dict at 1.
  destruct (String.eqb (nd_type nd) "node"); simpl; [f_equal; exact IH|].
  destruct (String.eqb (nd_type nd) "textnode"); simpl; [f_equal; exact IH|exact IH].
Qed.

Lemma resolve_None ns ad :
  resolve ns ad = None <->
  ~ index_accepted (length ns) (ad_start ad) \/ ~ index_accepted (length ns) (ad_end ad).
Proof.
  unfold resolve, index_accepted.
  destruct (py_getitem ns (ad_start ad)) as [s|] eqn:Es.
  - destruct (py_getitem ns (ad_end ad)) as [e|] eqn:Ee.
    + split; [discriminate|]. intros [Hn|Hn]; apply py_getitem_None in Hn; congruence.
    + split; [|done]. intros _. right. apply py_getitem_None. exact Ee.
  - split; [|done]. intros _. left. apply py_getitem_None. exact Es.
Qed.

Lemma resolve_Some_accepted ns ad ar :
  resolve ns ad = Some ar ->
  index_accepted (length ns) (ad_start ad) /\ index_accepted (length ns) (ad_end ad).
Proof.
  intros Hr. unfold index_accepted.
  destruct (decide (- Z.of_nat (length ns) <= ad_start ad < Z.of_nat (length ns))) as [H1|H1];
  [destruct (decide (- Z.of_nat (length ns) <= ad_end ad < Z.of_nat (length ns))) as [H2|H2]|].
  - split; assumption.
  - assert (Hn : resolve ns ad = None) by (apply resolve_None; right; exact H2). congruence.
  - assert (Hn : resolve ns ad = None) by (apply resolve_None; left; exact H1). congruence.
Qed.

(** C1, as the code has it: let [n] be the number of nodes built from the
    file.  If some arrow entry has an index outside [-n, n), [load_diagram]
    raises IndexError at the first such entry, of position [k]; at that moment
    the node collection holds the [n] new nodes only, the arrow collection
    holds only the [k] arrows of the entries before it, and the selection and
    the pending source are as before the call.  If every index is within
    [-n, n), negative ones included, the load returns. *)
Theorem load_index_out_of_range (data : diagram_data) (c : CanvasWidget.t) :
  let n := node_count data in
  (Exists (fun ad => ~ index_accepted n (ad_start ad) \/ ~ index_accepted n (ad_end ad))
          (data_arrows data) ->
   exists c' k bad,
     CanvasWidget.load_diagram data c = CanvasWidget.Raised IndexError c' /\
     data_arrows data !! k = Some bad /\
     (~ index_accepted n (ad_start bad) \/ ~ index_accepted n (ad_end bad)) /\
     Forall (fun ad => index_accepted n (ad_start ad) /\ index_accepted n (ad_end ad))
            (take k (data_arrows data)) /\
     CanvasWidget.nodes c' = seq (length (CanvasWidget.node_objs c)) n /\
     CanvasWidget.arrows c' = seq (length (CanvasWidget.arrow_objs c)) k /\
     CanvasWidget.selected_node c' = CanvasWidget.selected_node c /\
     CanvasWidget.selected_arrow c' = CanvasWidget.selected_arrow c /\
     CanvasWidget.arrow_source_node c' = CanvasWidget.arrow_source_node c) /\
  (Forall (fun ad => index_accepted n (ad_start ad) /\ index_accepted n (ad_end ad))
          (data_arrows data) ->
   exists c',
     CanvasWidget.load_diagram data c = CanvasWidget.Returned c' /\
     CanvasWidget.nodes c' = seq (length (CanvasWidget.node_objs c)) n /\
     CanvasWidget.arrows c'
     = seq (length (CanvasWidget.arrow_objs c)) (length (data_arrows data))).
Proof.
  intros n. unfold CanvasWidget.load_diagram. rewrite load_nodes_shape. simpl.
  set (c2 := with_nodes_appended _ _).
  assert (Hn2 : CanvasWidget.nodes c2 = seq (length (CanvasWidget.node_objs c)) n).
  { unfold c2, n. simpl. rewrite node_count_built. reflexivity. }
  assert (Hlen : length (CanvasWidget.nodes c2) = n) by (rewrite Hn2; apply length_seq).
  destruct (load_arrows_outcome (data_arrows data) c2)
    as (k & new & Hk & Hm & [[-> Hl]|(bad & Hb & Hr & Hl)]).
  - rewrite take_ge in Hm by lia. apply mapM_Some in Hm. rewrite Hl. split.
    + intros Hex. exfalso. apply Exists_exists in Hex as (ad & Had & Hbad).
      apply list_elem_of_lookup_1 in Had as [i Hi].
      destruct (Forall2_lookup_l _ _ _ _ _ Hm Hi) as (ar & _ & Har).
      rewrite <- Hlen in Hbad. apply resolve_None in Hbad. congruence.
    + intros _. eexists. split; [reflexivity|]. simpl. split; [exact Hn2|].
      apply Forall2_length in Hm. rewrite <- Hm. reflexivity.
  - rewrite Hl. apply mapM_Some in Hm. split.
    + intros _. exists (with_arrows_appended new c2), k, bad.
      split; [reflexivity|]. split; [exact Hb|].
      split; [rewrite <- Hlen; apply resolve_None; exact Hr|]. split.
      * apply Forall_forall. intros ad Had.
        apply list_elem_of_lookup_1 in Had as [i Hi].
        destruct (Forall2_lookup_l _ _ _ _ _ Hm Hi) as (ar & _ & Har).
        rewrite <- Hlen. eapply resolve_Some_accepted. exact Har.
      * split; [exact Hn2|]. split; [|simpl; repeat split; reflexivity].
        apply Forall2_length in Hm. simpl. rewrite <- Hm.
        apply lookup_lt_Some in Hb. rewrite length_take, Nat.min_l by lia. reflexivity.
    + intros Hall. exfalso. rewrite Forall_forall in Hall.
      apply resolve_None in Hr. rewrite Hlen in Hr.
      destruct (Hall bad) as [H1 H2]; [eapply list_elem_of_lookup_2; eauto|]. tauto.
Qed.

Lemma load_index_out_of_range_witness :
  exists c' k bad,
    CanvasWidget.load_diagram file_index_5 one_node = CanvasWidget.Raised IndexError c' /\
    data_arrows file_index_5 !! k = Some bad /\
    (~ index_accepted (node_count file_index_5) (ad_start bad) \/
     ~ index_accepted (node_count file_index_5) (ad_end bad)) /\
    Forall (fun ad => index_accepted (node_count file_index_5) (ad_start ad) /\
                      index_accepted (node_count file_index_5) (ad_end ad))
           (take k (data_arrows file_index_5)) /\
    CanvasWidget.nodes c' = seq (length (CanvasWidget.node_objs one_node))
                                (node_count file_index_5) /\
    CanvasWidget.arrows c' = seq (length (CanvasWidget.arrow_objs one_node)) k /\
    CanvasWidget.selected_node c' = CanvasWidget.selected_node one_node /\
    CanvasWidget.selected_arrow c' = CanvasWidget.selected_arrow one_node /\
    CanvasWidget.arrow_source_node c' = CanvasWidget.arrow_source_node one_node.
Proof.
  apply (proj1 (load_index_out_of_range file_index_5 one_node)).
  apply Exists_cons_hd. left. unfold index_accepted. vm_compute. intros [_ H]. discriminate H.
Defined.

(** The claim of an atomic load fails on the code: with one node open,
    loading a file with two nodes and an arrow whose start index is 5 raises,
    yet the node collection is no longer the one open before; and a start
    index of -1 is not refused at all. *)
Lemma load_index_5_replaces_document :
  ~ (exists e c',
       CanvasWidget.load_diagram file_index_5 one_node = CanvasWidget.Raised e c' /\
       CanvasWidget.nodes c' = CanvasWidget.nodes one_node /\
       CanvasWidget.arrows c' = CanvasWidget.arrows one_node)
  /\ (exists c',
        CanvasWidget.load_diagram file_index_minus_1 one_node = CanvasWidget.Returned c').
Proof.
  split.
  - intros (e & c' & Hl & Hn & _). vm_compute in Hl. inversion Hl; subst.
    vm_compute in Hn. discriminate Hn.
  - eexists. vm_compute. reflexivity.
Qed.

(** ** An arrow from a deleted node *)

(** C2 fails on the code: [delete_selected_node] leaves [arrow_source_node]
    pointing at the node it removes ([load_diagram] resets it), so the next
    press of the right button on another node creates an arrow whose start is
    not in the node collection.  [save_diagram] then raises KeyError. *)
Theorem pending_source_survives_delete :
  exists c,
    run dangling_events (CanvasWidget.init mono_font) = CanvasWidget.Returned c /\
    reachable mono_font c /\
    CanvasWidget.nodes c = [1%nat] /\
    CanvasWidget.arrows c = [0%nat] /\
    CanvasWidget.arrow_at c 0 = Arrow.mk 0 1 false /\
    (Arrow.start_node (CanvasWidget.arrow_at c 0) ∉ CanvasWidget.nodes c) /\
    CanvasWidget.save_diagram c = CanvasWidget.SaveRaised KeyError.
Proof.
  exists (after dangling_events mono_font).
  split; [vm_compute; reflexivity|].
  split; [exists dangling_events; vm_compute; reflexivity|].
  split; [vm_compute; reflexivity|].
  split; [vm_compute; reflexivity|].
  split; [vm_compute; reflexivity|].
  split; [|vm_compute; reflexivity].
  vm_compute. intros Hin. apply elem_of_cons in Hin as [Hin|Hin]; [discriminate|].
  apply elem_of_nil in Hin. exact Hin.
Qed.

(** * Further properties of the code *)

(** ** Hit testing *)

(** The first match in the reversed list is the last match of the list. *)
Lemma find_reverse_last {A} (f : A -> bool) (l : list A) :
  match List.find f (reverse l) with
  | Some x => exists l1 l2, l = l1 ++ x :: l2 /\ f x = true /\ Forall (fun y => f y = false) l2
  | None => Forall (fun y => f y = false) l
  end.
Proof.
  induction l as [|a l IH] using rev_ind; [constructor|].
  rewrite reverse_app. simpl. destruct (f a) eqn:Ea.
  - exists l, []. split; [reflexivity|]. split; [exact Ea|constructor].
  - destruct (List.find f (reverse l)) as [x|].
    + destruct IH as (l1 & l2 & -> & Hx & Hl2). exists l1, (l2 ++ [a]).
      split; [rewrite <- app_assoc; reflexivity|]. split; [exact Hx|].
      apply Forall_app. split; [exact Hl2|]. constructor; [exact Ea|constructor].
    + apply Forall_app. split; [exact IH|]. constructor; [exact Ea|constructor].
Qed.

(** X1: the node found under the pointer is the topmost one: it is in the
    node sequence, it contains the point, and no node after it in the sequence
    does; no node is found exactly when no node of the sequence contains the
    point.  The same holds for arrows and their hit test. *)
Theorem hit_is_topmost (c : CanvasWidget.t) (pos : QPointF) :
  match CanvasWidget.hit_node c pos with
  | Some n =>
      exists below above, CanvasWidget.nodes c = below ++ n :: above /\
        Node.contains (CanvasWidget.node_at c n) pos = true /\
        Forall (fun m => Node.contains (CanvasWidget.node_at c m) pos = false) above
  | None =>
      Forall (fun m => Node.contains (CanvasWidget.node_at c m) pos = false)
             (CanvasWidget.nodes c)
  end /\
  match CanvasWidget.hit_arrow c pos with
  | Some a =>
      exists below above, CanvasWidget.arrows c = below ++ a :: above /\
        Arrow.contains (CanvasWidget.node_objs c) (CanvasWidget.arrow_at c a) pos 8 = true /\
        Forall (fun b => Arrow.contains (CanvasWidget.node_objs c)
                           (CanvasWidget.arrow_at c b) pos 8 = false) above
  | None =>
      Forall (fun b => Arrow.contains (CanvasWidget.node_objs c)
                         (CanvasWidget.arrow_at c b) pos 8 = false)
             (CanvasWidget.arrows c)
  end.
Proof.
  split.
  - unfold CanvasWidget.hit_node.
    exact (find_reverse_last (fun n => Node.contains (CanvasWidget.node_at c n) pos)
             (CanvasWidget.nodes c)).
  - unfold CanvasWidget.hit_arrow.
    exact (find_reverse_last
             (fun a => Arrow.contains (CanvasWidget.node_objs c) (CanvasWidget.arrow_at c a) pos 8)
             (CanvasWidget.arrows c)).
Qed.

(** ** The Delete button cannot raise *)

(** X2: in a reachable state the Delete button returns, whatever is
    selected: [list.remove] never raises ValueError, because a selected node
    or arrow is always in its collection. *)
Theorem delete_never_raises (f : QFontMetrics.t) (c : CanvasWidget.t) :
  reachable f c ->
  exists c', handle ClickDelete c = CanvasWidget.Returned c'.
Proof.
  intros Hr. apply reachable_wf in Hr. destruct Hr. simpl.
  unfold MainWindow.delete_selected, CanvasWidget.delete_selected_node,
    CanvasWidget.delete_selected_arrow.
  destruct (CanvasWidget.selected_node c) as [n|] eqn:Hn.
  - simpl. destruct (py_remove_is_Some n _ (wf_selected_node0 n eq_refl)) as [ns ->]. eauto.
  - destruct (CanvasWidget.selected_arrow c) as [a|] eqn:Ha; [|eauto].
    destruct (py_remove_is_Some a _ (wf_selected_arrow0 a eq_refl)) as [l ->]. eauto.
Qed.

Lemma delete_never_raises_witness :
  exists c', handle ClickDelete (CanvasWidget.mousePressEvent LeftButton (at_ 125 25) proposition)
             = CanvasWidget.Returned c'.
Proof.
  apply (delete_never_raises mono_font
           (CanvasWidget.mousePressEvent LeftButton (at_ 125 25) proposition)).
  exists (proposition_events ++ [MousePress LeftButton (at_ 125 25)]).
  vm_compute. reflexivity.
Defined.

(** ** Deleting an arrow *)

(** X3: in a reachable state with a selected arrow and no selected node,
    the Delete button removes that arrow from the arrow collection, keeps every
    other arrow, clears the arrow selection and leaves the node collection and
    all objects as they are. *)
Theorem delete_arrow_removes_it (f : QFontMetrics.t) (c : CanvasWidget.t) (a : nat) :
  reachable f c ->
  CanvasWidget.selected_arrow c = Some a ->
  exists c',
    handle ClickDelete c = CanvasWidget.Returned c' /\
    (a ∉ CanvasWidget.arrows c') /\
    (forall b, b ∈ CanvasWidget.arrows c' <-> b ∈ CanvasWidget.arrows c /\ b <> a) /\
    CanvasWidget.selected_arrow c' = None /\
    CanvasWidget.nodes c' = CanvasWidget.nodes c /\
    CanvasWidget.node_objs c' = CanvasWidget.node_objs c /\
    CanvasWidget.arrow_objs c' = CanvasWidget.arrow_objs c.
Proof.
  intros Hr Ha. apply reachable_wf in Hr. destruct Hr.
  destruct (py_remove_is_Some a _ (wf_selected_arrow0 a Ha)) as [l Hl].
  pose proof (py_remove_elem _ _ _ Hl wf_arrows_nodup0) as Hel.
  assert (Hn : CanvasWidget.selected_node c = None)
    by (destruct wf_exclusive0 as [H|H]; [exact H|congruence]).
  exists (CanvasWidget.set_selected_arrow None (CanvasWidget.set_arrows l c)).
  split.
  { simpl. unfold MainWindow.delete_selected, CanvasWidget.delete_selected_arrow.
    rewrite Hn, Ha, Hl. reflexivity. }
  simpl. split; [intros Hin; apply Hel in Hin; tauto|].
  split; [exact Hel|]. repeat split; reflexivity.
Qed.

Lemma delete_arrow_removes_it_witness :
  exists c',
    handle ClickDelete (CanvasWidget.mousePressEvent LeftButton (at_ 100 34) proposition)
    = CanvasWidget.Returned c' /\
    (0%nat ∉ CanvasWidget.arrows c') /\
    (forall b, b ∈ CanvasWidget.arrows c' <->
       b ∈ CanvasWidget.arrows (CanvasWidget.mousePressEvent LeftButton (at_ 100 34) proposition)
       /\ b <> 0%nat) /\
    CanvasWidget.selected_arrow c' = None /\
    CanvasWidget.nodes c'
    = CanvasWidget.nodes (CanvasWidget.mousePressEvent LeftButton (at_ 100 34) proposition) /\
    CanvasWidget.node_objs c'
    = CanvasWidget.node_objs (CanvasWidget.mousePressEvent LeftButton (at_ 100 34) proposition) /\
    CanvasWidget.arrow_objs c'
    = CanvasWidget.arrow_objs (CanvasWidget.mousePressEvent LeftButton (at_ 100 34) proposition).
Proof.
  apply (delete_arrow_removes_it mono_font
           (CanvasWidget.mousePressEvent LeftButton (at_ 100 34) proposition) 0%nat).
  - exists (proposition_events ++ [MousePress LeftButton (at_ 100 34)]).
    vm_compute. reflexivity.
  - vm_compute. reflexivity.
Defined.

(** ** When saving raises *)

(** X4: [save_diagram] raises KeyError exactly when some arrow of the
    collection has an endpoint that is not in the node collection; otherwise it
    returns as many node dictionaries as nodes and as many arrow dictionaries
    as arrows. *)
Theorem save_raises_iff_dangling (c : CanvasWidget.t) :
  (CanvasWidget.save_diagram c = CanvasWidget.SaveRaised KeyError <-> ~ endpoints_present c) /\
  (forall d, CanvasWidget.save_diagram c = CanvasWidget.Dumped d ->
     endpoints_present c /\
     length (data_nodes d) = length (CanvasWidget.nodes c) /\
     length (data_arrows d) = length (CanvasWidget.arrows c)).
Proof.
  assert (Hd : forall d, CanvasWidget.save_diagram c = CanvasWidget.Dumped d ->
     endpoints_present c /\
     length (data_nodes d) = length (CanvasWidget.nodes c) /\
     length (data_arrows d) = length (CanvasWidget.arrows c)).
  { intros d. unfold CanvasWidget.save_diagram.
    destruct (mapM _ (CanvasWidget.arrows c)) as [ads|] eqn:Em; [|discriminate].
    intros [= <-]. apply mapM_Some in Em. simpl.
    split; [|split; [apply length_map|symmetry; eapply Forall2_length; eauto]].
    intros a Ha. apply list_elem_of_lookup_1 in Ha as [i Hi].
    destruct (Forall2_lookup_l _ _ _ _ _ Em Hi) as (ad & _ & Had).
    unfold Arrow.to_dict, CanvasWidget.node_indices in Had.
    destruct (CanvasWidget.enumerate_into 0 _ ∅ !! Arrow.start_node _) as [s|] eqn:Es; [|done].
    destruct (CanvasWidget.enumerate_into 0 _ ∅ !! Arrow.end_node _) as [e|] eqn:Ee; [|done].
    apply enumerate_into_Some in Es as [(Hs & _)|(_ & Hm)];
      [|rewrite lookup_empty in Hm; discriminate].
    apply enumerate_into_Some in Ee as [(He & _)|(_ & Hm)];
      [|rewrite lookup_empty in Hm; discriminate].
    split; assumption. }
  split; [|exact Hd]. split.
  - intros Hraise Hok. destruct (save_diagram_returns c Hok) as [d Hdump]. congruence.
  - intros Hnot. destruct (CanvasWidget.save_diagram c) as [d|e] eqn:Es.
    + exfalso. apply Hnot. exact (proj1 (Hd d eq_refl)).
    + unfold CanvasWidget.save_diagram in Es.
      destruct (mapM _ (CanvasWidget.arrows c)); [discriminate|]. symmetry. exact Es.
Qed.

Lemma save_raises_iff_dangling_witness : ~ endpoints_present (after dangling_events mono_font).
Proof.
  apply (proj1 (proj1 (save_raises_iff_dangling (after dangling_events mono_font)))).
  vm_compute. reflexivity.
Defined.

(** ** Dragging a node *)


Lemma mark_arrows_up_to_flag f refs objs r b :
  Arrow.set_selected b (CanvasWidget.mark_arrows f refs objs !!! r)
  = Arrow.set_selected b (objs !!! r).
Proof.
  revert objs. induction refs as [|a refs IH]; intros objs; simpl; [done|].
  rewrite IH. destruct (decide (a = r)) as [->|Hne].
  - destruct (decide (r < length objs)%nat).
    + rewrite list_lookup_total_insert_eq by done. reflexivity.
    + rewrite list_insert_ge by lia. reflexivity.
  - rewrite list_lookup_total_insert_ne by done. reflexivity.
Qed.




(** ** Selection flags in every reachable state *)

Lemma is_None (a : nat) : CanvasWidget.is_ a None = false.
Proof. reflexivity. Qed.

Lemma is_out_of_collection (a : nat) (sel : option nat) (l : list nat) :
  (forall x, sel = Some x -> x ∈ l) -> a ∉ l -> CanvasWidget.is_ a sel = false.
Proof.
  intros Hsel Ha. unfold CanvasWidget.is_. apply bool_decide_eq_false.
  intros Heq. apply Ha, Hsel. symmetry. exact Heq.
Qed.

Lemma init_unselected cl x y s f : Node.selected (Node.init cl x y s f) = false.
Proof. destruct cl; reflexivity. Qed.

Lemma set_text_selected n s : Node.selected (Node.set_text n s) = Node.selected n.
Proof. unfold Node.set_text. destruct (Node.class n); reflexivity. Qed.

Lemma modify_keeps_flag (g : Node.t -> Node.t) (l : list Node.t) (d m : nat) :
  (forall n, Node.selected (g n) = Node.selected n) ->
  Node.selected (<[d := g (l !!! d)]> l !!! m) = Node.selected (l !!! m).
Proof.
  intros Hg. destruct (decide (d = m)) as [->|Hne].
  - destruct (decide (m < length l)%nat).
    + rewrite list_lookup_total_insert_eq by done. apply Hg.
    + rewrite list_insert_ge by lia. reflexivity.
  - rewrite list_lookup_total_insert_ne by done. reflexivity.
Qed.

Lemma built_unselected f nds :
  Forall (fun n => Node.selected n = false) (omap (node_of_dict f) nds).
Proof.
  induction nds as [|nd nds IH]; simpl; [constructor|].
  unfold node_of_dict at 1.
  destruct (String.eqb (nd_type nd) "node"); simpl.
  - constructor; [apply init_unselected|exact IH].
  - destruct (String.eqb (nd_type nd) "textnode"); simpl; [|exact IH].
    constructor; [apply init_unselected|exact IH].
Qed.

Lemma resolved_unselected ns ads new :
  Forall2 (fun ad ar => resolve ns ad = Some ar) ads new ->
  Forall (fun ar => Arrow.selected ar = false) new.
Proof.
  induction 1 as [|ad ar ads new Hr _ IH]; constructor; [|exact IH].
  apply resolve_Some in Hr as (s & e & _ & _ & ->). reflexivity.
Qed.

Lemma flags_agree_same c c' :
  flags_agree c ->
  CanvasWidget.node_objs c' = CanvasWidget.node_objs c ->
  CanvasWidget.arrow_objs c' = CanvasWidget.arrow_objs c ->
  CanvasWidget.nodes c' = CanvasWidget.nodes c ->
  CanvasWidget.arrows c' = CanvasWidget.arrows c ->
  CanvasWidget.selected_node c' = CanvasWidget.selected_node c ->
  CanvasWidget.selected_arrow c' = CanvasWidget.selected_arrow c ->
  flags_agree c'.
Proof.
  intros [Hn Ha] E1 E2 E3 E4 E5 E6.
  unfold flags_agree, CanvasWidget.node_at, CanvasWidget.arrow_at.
  rewrite E1, E2, E3, E4, E5, E6. split; assumption.
Qed.

Lemma flags_select_node node c : wf c -> flags_agree (CanvasWidget.select_node node c).
Proof.
  intros Hwf. destruct (select_node_flags node c Hwf) as [Hn Ha]. split.
  - exact Hn.
  - intros a Hin. rewrite (Ha a Hin). reflexivity.
Qed.

Lemma flags_select_arrow a c : wf c -> flags_agree (CanvasWidget.select_arrow (Some a) c).
Proof.
  intros Hwf. destruct (select_arrow_flags a c Hwf) as [Ha Hn]. split.
  - intros m Hin. rewrite (Hn m Hin). reflexivity.
  - intros b Hin. rewrite (Ha b Hin). symmetry. apply is_Some_eq.
Qed.

Lemma flags_clear c :
  wf c -> flags_agree (CanvasWidget.select_arrow None (CanvasWidget.select_node None c)).
Proof.
  intros Hwf.
  assert (Hwf1 : wf (CanvasWidget.select_node None c))
    by (apply wf_select_node; [exact Hwf|discriminate]).
  destruct (flags_select_node None c Hwf) as [Hn _].
  destruct (select_arrow_None_flags _ Hwf1) as [Ha Hsame]. split.
  - intros m Hin. rewrite Hsame. exact (Hn m Hin).
  - intros a Hin. rewrite (Ha a Hin). reflexivity.
Qed.

Lemma flags_append_new_node n c :
  wf c -> flags_agree c -> Node.selected n = false ->
  flags_agree (CanvasWidget.append_new_node n c).
Proof.
  intros [] [Hn Ha] Hsel. split; [|exact Ha].
  intros m Hin. unfold CanvasWidget.node_at. simpl in *.
  apply elem_of_app in Hin as [Hin|Hin].
  - rewrite lookup_total_app_l; [exact (Hn m Hin)|].
    rewrite Forall_forall in wf_nodes_range0. auto.
  - apply list_elem_of_singleton in Hin. subst m.
    rewrite list_lookup_total_middle by reflexivity. rewrite Hsel. symmetry.
    apply (is_out_of_collection _ _ (CanvasWidget.nodes c)); [exact wf_selected_node0|].
    intros Hin. rewrite Forall_forall in wf_nodes_range0.
    specialize (wf_nodes_range0 _ Hin). lia.
Qed.

Lemma flags_append_new_arrow s e c :
  wf c -> flags_agree c -> flags_agree (CanvasWidget.append_new_arrow s e c).
Proof.
  intros [] [Hn Ha]. split; [exact Hn|].
  intros a Hin. unfold CanvasWidget.arrow_at. simpl in *.
  apply elem_of_app in Hin as [Hin|Hin].
  - rewrite lookup_total_app_l; [exact (Ha a Hin)|].
    rewrite Forall_forall in wf_arrows_range0. auto.
  - apply list_elem_of_singleton in Hin. subst a.
    rewrite list_lookup_total_middle by reflexivity. simpl. symmetry.
    apply (is_out_of_collection _ _ (CanvasWidget.arrows c)); [exact wf_selected_arrow0|].
    intros Hin. rewrite Forall_forall in wf_arrows_range0.
    specialize (wf_arrows_range0 _ Hin). lia.
Qed.

Lemma flags_modify_node (g : Node.t -> Node.t) d c :
  flags_agree c -> (forall n, Node.selected (g n) = Node.selected n) ->
  flags_agree (CanvasWidget.set_node_objs
                 (<[d := g (CanvasWidget.node_at c d)]> (CanvasWidget.node_objs c)) c).
Proof.
  intros [Hn Ha] Hg. split; [|exact Ha].
  intros m Hin. unfold CanvasWidget.node_at. simpl.
  rewrite modify_keeps_flag by exact Hg. exact (Hn m Hin).
Qed.

Lemma flags_load_diagram data c c' :
  CanvasWidget.load_diagram data c = CanvasWidget.Returned c' -> flags_agree c'.
Proof.
  intros Hl. unfold CanvasWidget.load_diagram in Hl. rewrite load_nodes_shape in Hl.
  match type of Hl with context [CanvasWidget.load_arrows ?a ?c2] =>
    destruct (load_arrows_outcome a c2) as (k & new & _ & Hm & [[_ Hr]|(bad & _ & _ & Hr)]);
    rewrite Hr in Hl end; [|discriminate].
  inversion Hl; subst. clear Hl Hr. apply mapM_Some in Hm.
  apply resolved_unselected in Hm.
  pose proof (built_unselected (CanvasWidget.node_font c) (data_nodes data)) as Hb.
  simpl in Hb. split.
  - intros m Hin. unfold CanvasWidget.node_at. simpl in *.
    apply elem_of_seq in Hin.
    rewrite lookup_total_app_r by lia. rewrite is_None.
    rewrite Forall_forall in Hb. apply Hb. apply list_elem_of_lookup_total_2. lia.
  - intros a Hin. unfold CanvasWidget.arrow_at. simpl in *.
    apply elem_of_seq in Hin.
    rewrite lookup_total_app_r by lia. rewrite is_None.
    rewrite Forall_forall in Hm. apply Hm. apply list_elem_of_lookup_total_2. lia.
Qed.

Ltac flags_frame inner := apply (flags_agree_same inner); [|reflexivity..].

Lemma flags_mousePressEvent b p c :
  wf c -> flags_agree c -> flags_agree (CanvasWidget.mousePressEvent b p c).
Proof.
  intros Hwf Hfl. unfold CanvasWidget.mousePressEvent.
  set (pos := CanvasWidget.scaled p (CanvasWidget._zoom c)).
  destruct b.
  - destruct (CanvasWidget.hit_arrow c pos) as [a|].
    + flags_frame (CanvasWidget.select_arrow (Some a) c). apply flags_select_arrow, Hwf.
    + destruct (CanvasWidget.hit_node c pos) as [n|].
      * flags_frame (CanvasWidget.select_node (Some n) c). apply flags_select_node, Hwf.
      * flags_frame (CanvasWidget.select_arrow None (CanvasWidget.select_node None c)).
        apply flags_clear, Hwf.
  - destruct (CanvasWidget.hit_node c pos) as [n|].
    + destruct (CanvasWidget.arrow_source_node c) as [src|].
      * destruct (decide (src <> n)).
        -- flags_frame (CanvasWidget.append_new_arrow src n c).
           apply flags_append_new_arrow; assumption.
        -- flags_frame c. exact Hfl.
      * flags_frame c. exact Hfl.
    + destruct (CanvasWidget.arrow_source_node c); [flags_frame c|]; exact Hfl.
  - exact Hfl.
Qed.

Lemma flags_handle ev c c' :
  wf c -> flags_agree c -> handle ev c = CanvasWidget.Returned c' -> flags_agree c'.
Proof.
  intros Hwf Hfl. destruct ev; simpl.
  - intros [= <-]. apply flags_mousePressEvent; assumption.
  - intros [= <-]. unfold CanvasWidget.mouseMoveEvent.
    destruct (CanvasWidget.dragging_node c) as [d|]; [|exact Hfl].
    match goal with |- flags_agree (CanvasWidget.hide_editor ?inner) => flags_frame inner end.
    apply (flags_modify_node (Node.set_xy _ _)); [exact Hfl|reflexivity].
  - intros [= <-]. flags_frame c. exact Hfl.
  - intros [= <-]. unfold CanvasWidget.mouseDoubleClickEvent.
    destruct (CanvasWidget.hit_node _ _); [flags_frame c; exact Hfl|].
    apply flags_append_new_node; [assumption..|apply init_unselected].
  - intros [= <-]. unfold CanvasWidget.finish_editing.
    destruct (CanvasWidget.editing_node c) as [e|]; [|exact Hfl].
    match goal with |- flags_agree (CanvasWidget.set_editing_node None ?inner) =>
      flags_frame inner end.
    apply (flags_modify_node (fun n => Node.set_text n entered)); [exact Hfl|].
    intros n. apply set_text_selected.
  - intros [= <-]. apply flags_append_new_node; [assumption..|apply init_unselected].
  - intros [= <-]. apply flags_append_new_node; [assumption..|apply init_unselected].
  - destruct Hwf. destruct Hfl as [Hn Ha].
    unfold MainWindow.delete_selected, CanvasWidget.delete_selected_node,
      CanvasWidget.delete_selected_arrow.
    destruct (CanvasWidget.selected_node c) as [sel|] eqn:Hsel.
    + simpl. destruct (py_remove sel (CanvasWidget.nodes c)) as [ns|] eqn:Hr; [|discriminate].
      intros [= <-].
      pose proof (py_remove_elem _ _ _ Hr wf_nodes_nodup0) as Hel. split.
      * intros m Hin. apply Hel in Hin as [Hin Hne]. unfold CanvasWidget.node_at in *. simpl.
        rewrite (Hn m Hin), is_Some_eq. apply bool_decide_eq_false. exact Hne.
      * intros a Hin. unfold CanvasWidget.arrows_not_touching in Hin. simpl in Hin.
        apply list_elem_of_filter in Hin as [_ Hin]. exact (Ha a Hin).
    + destruct (CanvasWidget.selected_arrow c) as [sel|] eqn:Hsa.
      * destruct (py_remove sel (CanvasWidget.arrows c)) as [l|] eqn:Hr; [|discriminate].
        intros [= <-].
        pose proof (py_remove_elem _ _ _ Hr wf_arrows_nodup0) as Hel. split.
        -- intros m Hin. simpl in *. rewrite Hsel. exact (Hn m Hin).
        -- intros a Hin. apply Hel in Hin as [Hin Hne]. unfold CanvasWidget.arrow_at in *.
           simpl. rewrite (Ha a Hin), is_Some_eq. apply bool_decide_eq_false. exact Hne.
      * intros [= <-]. split.
        -- intros m Hin. rewrite Hsel. exact (Hn m Hin).
        -- intros a Hin. rewrite Hsa. exact (Ha a Hin).
  - apply flags_load_diagram.
  - intros [= <-]. flags_frame c. exact Hfl.
  - intros [= <-]. flags_frame c. exact Hfl.
Qed.

(** X6: in every reachable state, whatever mix of presses, drags, edits,
    additions, deletions and loads led to it, a node of the node collection is
    flagged exactly when [selected_node] points to it, an arrow of the arrow
    collection exactly when [selected_arrow] points to it, the two pointers are
    never both set, and so at most one entity is flagged. *)
Theorem flags_follow_selection (f : QFontMetrics.t) (c : CanvasWidget.t) :
  reachable f c ->
  flags_agree c /\
  (CanvasWidget.selected_node c = None \/ CanvasWidget.selected_arrow c = None) /\
  (selected_count c <= 1)%nat.
Proof.
  intros Hr.
  assert (Hboth : wf c /\ flags_agree c).
  { revert c Hr. apply reachable_ind.
    - split; [apply wf_init|]. split; intros x Hx; apply elem_of_nil in Hx; contradiction.
    - intros c ev c' [Hwf Hfl] Hh. split; [eapply wf_handle; eauto|eapply flags_handle; eauto]. }
  destruct Hboth as [Hwf Hfl]. split; [exact Hfl|]. pose proof Hwf as [].
  split; [exact wf_exclusive0|]. destruct Hfl as [Hn Ha].
  destruct (CanvasWidget.selected_node c) as [n|] eqn:Hsn.
  - destruct wf_exclusive0 as [?|Hsa]; [discriminate|].
    assert (Hc : selected_count c = 1%nat).
    { apply (selected_count_one_node c n); [exact wf_nodes_nodup0|auto| |].
      - intros m Hin. rewrite (Hn m Hin). apply is_Some_eq.
      - intros a Hin. rewrite (Ha a Hin), Hsa. reflexivity. }
    lia.
  - destruct (CanvasWidget.selected_arrow c) as [a|] eqn:Hsa.
    + assert (Hc : selected_count c = 1%nat).
      { apply (selected_count_one_arrow c a); [exact wf_arrows_nodup0|auto| |].
        - intros b Hin. rewrite (Ha b Hin). apply is_Some_eq.
        - intros m Hin. rewrite (Hn m Hin). reflexivity. }
      lia.
    + assert (Hc : selected_count c = 0%nat).
      { apply selected_count_none.
        - intros m Hin. rewrite (Hn m Hin). reflexivity.
        - intros b Hin. rewrite (Ha b Hin). reflexivity. }
      lia.
Qed.

Lemma flags_follow_selection_witness :
  flags_agree proposition /\
  (CanvasWidget.selected_node proposition = None \/
   CanvasWidget.selected_arrow proposition = None) /\
  (selected_count proposition <= 1)%nat.
Proof.
  apply (flags_follow_selection mono_font proposition).
  exists proposition_events. vm_compute. reflexivity.
Defined.

(** ** When arrows stay attached to nodes of the document *)

Lemma py_getitem_elem {A} (l : list A) (i : Z) (x : A) : py_getitem l i = Some x -> x ∈ l.
Proof.
  unfold py_getitem. repeat case_decide; try discriminate;
    intros Hl; eapply list_elem_of_lookup_2; eauto.
Qed.

Lemma select_arrow_up_to_flag arrow c a b :
  Arrow.set_selected b (CanvasWidget.arrow_at (CanvasWidget.select_arrow arrow c) a)
  = Arrow.set_selected b (CanvasWidget.arrow_at c a).
Proof.
  unfold CanvasWidget.select_arrow, CanvasWidget.arrow_at.
  destruct arrow; simpl; apply mark_arrows_up_to_flag.
Qed.

Lemma select_node_arrow_up_to_flag node c a b :
  Arrow.set_selected b (CanvasWidget.arrow_at (CanvasWidget.select_node node c) a)
  = Arrow.set_selected b (CanvasWidget.arrow_at c a).
Proof.
  unfold CanvasWidget.select_node. rewrite select_arrow_up_to_flag. reflexivity.
Qed.

(** Arrows stay attached when the arrow objects change at most their flag,
    no node leaves the node collection and the pending source is kept. *)
Lemma attached_mono c c' :
  attached c ->
  CanvasWidget.arrows c' = CanvasWidget.arrows c ->
  (forall a, Arrow.set_selected false (CanvasWidget.arrow_at c' a)
             = Arrow.set_selected false (CanvasWidget.arrow_at c a)) ->
  (forall m, m ∈ CanvasWidget.nodes c -> m ∈ CanvasWidget.nodes c') ->
  CanvasWidget.arrow_source_node c' = CanvasWidget.arrow_source_node c ->
  attached c'.
Proof.
  intros [He Hs] Ea Eobj Hn Esrc. split.
  - intros a Hin. rewrite Ea in Hin. destruct (He a Hin) as [H1 H2].
    pose proof (f_equal Arrow.start_node (Eobj a)) as E1.
    pose proof (f_equal Arrow.end_node (Eobj a)) as E2. simpl in E1, E2.
    rewrite E1, E2. split; apply Hn; assumption.
  - intros s Hsrc. rewrite Esrc in Hsrc. apply Hn, Hs, Hsrc.
Qed.

Lemma attached_set_source v c :
  attached c -> (forall s, v = Some s -> s ∈ CanvasWidget.nodes c) ->
  attached (CanvasWidget.set_arrow_source_node v c).
Proof. intros [He _] Hv. split; [exact He|exact Hv]. Qed.

Lemma attached_append_new_arrow s e c :
  wf c -> attached c -> s ∈ CanvasWidget.nodes c -> e ∈ CanvasWidget.nodes c ->
  attached (CanvasWidget.append_new_arrow s e c).
Proof.
  intros [] [He Hsrc] Hs Hen. split; [|exact Hsrc].
  intros a Hin. unfold CanvasWidget.arrow_at. simpl in *.
  apply elem_of_app in Hin as [Hin|Hin].
  - rewrite lookup_total_app_l; [exact (He a Hin)|].
    rewrite Forall_forall in wf_arrows_range0. auto.
  - apply list_elem_of_singleton in Hin. subst a.
    rewrite list_lookup_total_middle by reflexivity. simpl. split; assumption.
Qed.

Lemma resolved_in_nodes ns ads new :
  Forall2 (fun ad ar => resolve ns ad = Some ar) ads new ->
  Forall (fun ar => Arrow.start_node ar ∈ ns /\ Arrow.end_node ar ∈ ns) new.
Proof.
  induction 1 as [|ad ar ads new Hr _ IH]; constructor; [|exact IH].
  apply resolve_Some in Hr as (s & e & Hs & He & ->). simpl.
  split; eapply py_getitem_elem; eauto.
Qed.

Lemma attached_load_diagram data c c' :
  CanvasWidget.load_diagram data c = CanvasWidget.Returned c' -> attached c'.
Proof.
  intros Hl. unfold CanvasWidget.load_diagram in Hl. rewrite load_nodes_shape in Hl.
  match type of Hl with context [CanvasWidget.load_arrows ?a ?c2] =>
    destruct (load_arrows_outcome a c2) as (k & new & _ & Hm & [[_ Hr]|(bad & _ & _ & Hr)]);
    rewrite Hr in Hl end; [|discriminate].
  inversion Hl; subst. clear Hl Hr. apply mapM_Some in Hm.
  apply resolved_in_nodes in Hm. split; [|discriminate].
  intros a Hin. unfold CanvasWidget.arrow_at. simpl in *.
  apply elem_of_seq in Hin. rewrite lookup_total_app_r by lia.
  rewrite Forall_forall in Hm. apply Hm. apply list_elem_of_lookup_total_2. lia.
Qed.

Lemma attached_handle (c c' : CanvasWidget.t) (ev : event) :
  wf c ->
  attached c ->
  handle ev c = CanvasWidget.Returned c' ->
  (ev = ClickDelete ->
   forall n, CanvasWidget.selected_node c = Some n -> CanvasWidget.arrow_source_node c <> Some n) ->
  attached c'.
Proof.
  intros Hr Hatt Hh Hdel. pose proof Hr as Hwf. destruct Hr.
  destruct ev; simpl in Hh.
  - inversion Hh; subst c'. clear Hh. unfold CanvasWidget.mousePressEvent.
    set (pos := CanvasWidget.scaled position (CanvasWidget._zoom c)).
    destruct button.
    + destruct (CanvasWidget.hit_arrow c pos) as [a|].
      * apply (attached_mono c); auto. intros b. apply (select_arrow_up_to_flag (Some a) c b).
      * destruct (CanvasWidget.hit_node c pos) as [n|].
        -- apply (attached_mono c); auto.
           intros b. apply (select_node_arrow_up_to_flag (Some n) c b).
        -- apply (attached_mono c); auto. intros b.
           change (CanvasWidget.arrow_at _ b)
             with (CanvasWidget.arrow_at
                     (CanvasWidget.select_arrow None (CanvasWidget.select_node None c)) b) at 1.
           rewrite select_arrow_up_to_flag. apply select_node_arrow_up_to_flag.
    + destruct (CanvasWidget.hit_node c pos) as [n|] eqn:Hn.
      * apply hit_node_elem in Hn.
        destruct (CanvasWidget.arrow_source_node c) as [src|] eqn:Hsrc.
        -- destruct (decide (src <> n)).
           ++ assert (Ha : attached (CanvasWidget.append_new_arrow src n c)).
              { apply attached_append_new_arrow; auto. destruct Hatt as [_ Hs]. auto. }
              destruct Ha as [He _]. split; [exact He|discriminate].
           ++ apply attached_set_source; [exact Hatt|]. intros s [= <-]. exact Hn.
        -- apply attached_set_source; [exact Hatt|]. intros s [= <-]. exact Hn.
      * destruct (CanvasWidget.arrow_source_node c);
          [apply attached_set_source; [exact Hatt|discriminate]|exact Hatt].
    + exact Hatt.
  - inversion Hh; subst c'. unfold CanvasWidget.mouseMoveEvent.
    destruct (CanvasWidget.dragging_node c); [|exact Hatt]. apply (attached_mono c); auto.
  - inversion Hh; subst c'. apply (attached_mono c); auto.
  - inversion Hh; subst c'. unfold CanvasWidget.mouseDoubleClickEvent.
    destruct (CanvasWidget.hit_node _ _); apply (attached_mono c); auto.
    intros m Hm. simpl. apply elem_of_app. left. exact Hm.
  - inversion Hh; subst c'. unfold CanvasWidget.finish_editing.
    destruct (CanvasWidget.editing_node c); [|exact Hatt]. apply (attached_mono c); auto.
  - inversion Hh; subst c'. apply (attached_mono c); auto.
    intros m Hm. simpl. apply elem_of_app. left. exact Hm.
  - inversion Hh; subst c'. apply (attached_mono c); auto.
    intros m Hm. simpl. apply elem_of_app. left. exact Hm.
  - destruct Hatt as [He Hs]. specialize (Hdel eq_refl).
    unfold MainWindow.delete_selected, CanvasWidget.delete_selected_node,
      CanvasWidget.delete_selected_arrow in Hh.
    destruct (CanvasWidget.selected_node c) as [sel|] eqn:Hsel.
    + simpl in Hh.
      destruct (py_remove sel (CanvasWidget.nodes c)) as [ns|] eqn:Hrm; [|discriminate].
      inversion Hh; subst c'. clear Hh.
      pose proof (py_remove_elem _ _ _ Hrm wf_nodes_nodup0) as Hel. split.
      * intros a Hin. simpl in Hin. unfold CanvasWidget.arrows_not_touching in Hin.
        apply list_elem_of_filter in Hin as [[H1 H2] Hin].
        destruct (He a Hin) as [H3 H4]. unfold CanvasWidget.arrow_at in *. simpl.
        split; apply Hel; split; assumption.
      * intros s Hsrc. simpl in *. apply Hel. split; [apply Hs, Hsrc|].
        intros ->. exact (Hdel sel eq_refl Hsrc).
    + destruct (CanvasWidget.selected_arrow c) as [sel|] eqn:Hsa.
      * destruct (py_remove sel (CanvasWidget.arrows c)) as [l|] eqn:Hrm; [|discriminate].
        inversion Hh; subst c'. clear Hh.
        pose proof (py_remove_elem _ _ _ Hrm wf_arrows_nodup0) as Hel. split.
        -- intros a Hin. simpl in Hin. apply Hel in Hin as [Hin _]. exact (He a Hin).
        -- exact Hs.
      * inversion Hh; subst c'. split; assumption.
  - eapply attached_load_diagram; eauto.
  - inversion Hh; subst c'. apply (attached_mono c); auto.
  - inversion Hh; subst c'. apply (attached_mono c); auto.
Qed.

(** X7: from a reachable state in which every arrow joins two nodes of the
    document and the pending source, if any, is a node of the document, every
    handler that returns leaves such a state again, except a Delete of the
    node that is the pending source. *)
Theorem arrows_stay_attached (f : QFontMetrics.t) (c c' : CanvasWidget.t) (ev : event) :
  reachable f c ->
  attached c ->
  handle ev c = CanvasWidget.Returned c' ->
  (ev = ClickDelete ->
   forall n, CanvasWidget.selected_node c = Some n -> CanvasWidget.arrow_source_node c <> Some n) ->
  attached c'.
Proof.
  intros Hr. apply attached_handle. apply reachable_wf in Hr. exact Hr.
Qed.

Lemma arrows_stay_attached_witness :
  attached (CanvasWidget.mousePressEvent RightButton (at_ 25 25) proposition).
Proof.
  assert (H1 : reachable mono_font proposition)
    by (exists proposition_events; vm_compute; reflexivity).
  assert (H2 : attached proposition).
  { split; [|intros s Hs; vm_compute in Hs; discriminate Hs].
    intros a Ha. vm_compute in Ha.
    apply elem_of_cons in Ha as [->|Ha]; [vm_compute; split; set_solver|].
    apply elem_of_cons in Ha as [->|Ha]; [vm_compute; split; set_solver|].
    apply elem_of_nil in Ha. contradiction. }
  apply (arrows_stay_attached mono_font proposition _ (MousePress RightButton (at_ 25 25)) H1 H2).
  - reflexivity.
  - intros H. discriminate H.
Defined.

(** ** Saving what was loaded *)

Lemma to_dict_built f nds :
  map Node.to_dict (omap (node_of_dict f) nds) = List.filter known_type nds.
Proof.
  induction nds as [|nd nds IH]; [done|].
  simpl. unfold node_of_dict at 1, known_type at 1.
  destruct (String.eqb (nd_type nd) "node") eqn:E1; simpl.
  - apply String.eqb_eq in E1. f_equal; [|exact IH].
    destruct nd; simpl in *. subst. reflexivity.
  - destruct (String.eqb (nd_type nd) "textnode") eqn:E2; simpl; [|exact IH].
    apply String.eqb_eq in E2. f_equal; [|exact IH].
    destruct nd; simpl in *. subst. reflexivity.
Qed.

Lemma py_getitem_seq (base n : nat) (i : Z) (x : nat) :
  py_getitem (seq base n) i = Some x ->
  exists s, (s < n)%nat /\ x = (base + s)%nat /\ Z.of_nat s = normalise_index n i.
Proof.
  unfold py_getitem, normalise_index. rewrite length_seq.
  destruct (decide (0 <= i < Z.of_nat n)) as [H1|H1].
  - intros Hl. apply lookup_seq in Hl as [-> Hlt]. exists (Z.to_nat i).
    split; [exact Hlt|]. split; [reflexivity|].
    destruct (decide (i < 0)); lia.
  - destruct (decide (- Z.of_nat n <= i < 0)) as [H2|H2]; [|discriminate].
    intros Hl. apply lookup_seq in Hl as [-> Hlt]. exists (Z.to_nat (Z.of_nat n + i)).
    split; [exact Hlt|]. split; [reflexivity|].
    destruct (decide (i < 0)); lia.
Qed.

(** Saving a widget whose collections are the freshly appended objects [B]
    and [new] writes the dictionaries of [B] and the positions of the
    endpoints of [new]. *)
Lemma save_of_appended c' objs0 aobjs0 (B : list Node.t) (new : list Arrow.t) ads' :
  CanvasWidget.node_objs c' = objs0 ++ B ->
  CanvasWidget.nodes c' = seq (length objs0) (length B) ->
  CanvasWidget.arrow_objs c' = aobjs0 ++ new ->
  CanvasWidget.arrows c' = seq (length aobjs0) (length new) ->
  Forall2 (fun ar ad' => exists s e, (s < length B)%nat /\ (e < length B)%nat /\
             ar = Arrow.init (length objs0 + s) (length objs0 + e) /\
             ad' = mk_arrow_dict (Z.of_nat s) (Z.of_nat e)) new ads' ->
  CanvasWidget.save_diagram c' = CanvasWidget.Dumped (mk_diagram_data (map Node.to_dict B) ads').
Proof.
  intros En Enl Ea Eal Hrel. unfold CanvasWidget.save_diagram.
  assert (Hnodes : map (fun r => Node.to_dict (CanvasWidget.node_at c' r)) (CanvasWidget.nodes c')
                   = map Node.to_dict B).
  { unfold CanvasWidget.node_at. rewrite En, Enl.
    rewrite <- (map_map (fun r => (objs0 ++ B) !!! r) Node.to_dict).
    rewrite map_seq_lookup_app. reflexivity. }
  rewrite Hnodes.
  assert (Harrows : mapM (fun a => Arrow.to_dict (CanvasWidget.arrow_at c' a)
                                     (CanvasWidget.node_indices c')) (CanvasWidget.arrows c')
                    = Some ads').
  { apply mapM_Some. apply Forall2_same_length_lookup_2.
    - rewrite Eal, length_seq. eapply Forall2_length; eauto.
    - intros i a ad' Hia Hiad. rewrite Eal in Hia. apply lookup_seq in Hia as [-> Hi].
      destruct (Forall2_lookup_r _ _ _ _ _ Hrel Hiad) as (ar & Hiar & s & e & Hs & He & -> & ->).
      unfold CanvasWidget.arrow_at. rewrite Ea, lookup_total_app_r by lia.
      replace (length aobjs0 + i - length aobjs0)%nat with i by lia.
      rewrite (list_lookup_total_correct _ _ _ Hiar).
      unfold Arrow.to_dict, CanvasWidget.node_indices. simpl. rewrite Enl.
      rewrite (enumerate_into_NoDup _ 0 ∅ (length objs0 + s) s (NoDup_seq _ _))
        by (apply lookup_seq_lt; exact Hs).
      rewrite (enumerate_into_NoDup _ 0 ∅ (length objs0 + e) e (NoDup_seq _ _))
        by (apply lookup_seq_lt; exact He).
      reflexivity. }
  rewrite Harrows. reflexivity.
Qed.

(** X8: whenever [load_diagram] returns, saving the loaded document writes
    the node entries of the file that have a known type, in order and with
    their type, x, y and text, and the arrow entries of the file with every
    negative index replaced by the position it denotes; nothing of the
    document that was open before is written. *)
Theorem load_then_save (data : diagram_data) (c0 c' : CanvasWidget.t) :
  CanvasWidget.load_diagram data c0 = CanvasWidget.Returned c' ->
  CanvasWidget.save_diagram c'
  = CanvasWidget.Dumped
      (mk_diagram_data (List.filter known_type (data_nodes data))
                       (map (normalise_arrow (node_count data)) (data_arrows data))).
Proof.
  intros Hl. unfold CanvasWidget.load_diagram in Hl. rewrite load_nodes_shape in Hl.
  match type of Hl with context [CanvasWidget.load_arrows ?a ?c2] =>
    destruct (load_arrows_outcome a c2) as (k & new & Hk & Hm & [[-> Hr]|(bad & _ & _ & Hr)]);
    rewrite Hr in Hl end; [|discriminate].
  inversion Hl; subst c'. clear Hl Hr.
  rewrite take_ge in Hm by lia. apply mapM_Some in Hm. simpl in Hm.
  rewrite <- (to_dict_built (CanvasWidget.node_font c0)).
  rewrite <- (node_count_built (CanvasWidget.node_font c0)).
  set (B := omap (node_of_dict (CanvasWidget.node_font c0)) (data_nodes data)) in *.
  apply (save_of_appended _ (CanvasWidget.node_objs c0) (CanvasWidget.arrow_objs c0) B new);
    try reflexivity.
  change (map (normalise_arrow (length B)) (data_arrows data))
    with (normalise_arrow (length B) <$> data_arrows data).
  apply Forall2_fmap_r. apply Forall2_flip.
  eapply Forall2_impl; [exact Hm|].
  intros ad ar Hres. simpl.
  apply resolve_Some in Hres as (s & e & Hs & He & ->).
  apply py_getitem_seq in Hs as (s' & Hs' & -> & Es).
  apply py_getitem_seq in He as (e' & He' & -> & Ee).
  exists s', e'. repeat split; try assumption.
  unfold normalise_arrow. rewrite <- Es, <- Ee. reflexivity.
Qed.

Lemma load_then_save_witness :
  CanvasWidget.save_diagram (loaded file_index_minus_1 proposition)
  = CanvasWidget.Dumped
      (mk_diagram_data (List.filter known_type (data_nodes file_index_minus_1))
         (map (normalise_arrow (node_count file_index_minus_1))
              (data_arrows file_index_minus_1))).
Proof.
  apply (load_then_save file_index_minus_1 proposition).
  vm_compute. reflexivity.
Defined.

(** ** Hitting an arrow *)







(** ** Adding nodes *)

Lemma init_class cl x y s f : Node.class (Node.init cl x y s f) = cl.
Proof. destruct cl; reflexivity. Qed.

(** What appending a new node object changes. *)
Lemma append_new_node_props (n : Node.t) (c : CanvasWidget.t) :
  wf c ->
  let c' := CanvasWidget.append_new_node n c in
  let new := length (CanvasWidget.node_objs c) in
  (new ∉ CanvasWidget.nodes c) /\
  CanvasWidget.node_at c' new = n /\
  (forall m, m ∈ CanvasWidget.nodes c -> CanvasWidget.node_at c' m = CanvasWidget.node_at c m) /\
  (forall pos, Node.contains n pos = true -> CanvasWidget.hit_node c' pos = Some new) /\
  CanvasWidget.count_concepts c'
  = (CanvasWidget.count_concepts c + if Node.isinstance_TextNode n then 0 else 1)%nat /\
  CanvasWidget.count_texts c'
  = (CanvasWidget.count_texts c + if Node.isinstance_TextNode n then 1 else 0)%nat.
Proof.
  intros [] c' new.
  assert (Hrange : forall m, m ∈ CanvasWidget.nodes c -> (m < new)%nat).
  { intros m Hm. rewrite Forall_forall in wf_nodes_range0. exact (wf_nodes_range0 m Hm). }
  assert (Hnew : CanvasWidget.node_at c' new = n).
  { unfold CanvasWidget.node_at. simpl. apply list_lookup_total_middle. reflexivity. }
  assert (Hold : forall m, m ∈ CanvasWidget.nodes c ->
            CanvasWidget.node_at c' m = CanvasWidget.node_at c m).
  { intros m Hm. unfold CanvasWidget.node_at. simpl. apply lookup_total_app_l.
    exact (Hrange m Hm). }
  split; [intros Hin; specialize (Hrange _ Hin); lia|].
  split; [exact Hnew|]. split; [exact Hold|]. split.
  { intros pos Hpos. unfold CanvasWidget.hit_node.
    change (CanvasWidget.nodes c') with (CanvasWidget.nodes c ++ [new]).
    rewrite reverse_app. simpl. rewrite Hnew, Hpos. reflexivity. }
  unfold CanvasWidget.count_concepts, CanvasWidget.count_texts.
  change (CanvasWidget.nodes c') with (CanvasWidget.nodes c ++ [new]).
  rewrite !filter_app, !length_app.
  rewrite (filter_ext_elem
             (fun r => Node.isinstance_TextNode (CanvasWidget.node_at c' r) = false)
             (fun r => Node.isinstance_TextNode (CanvasWidget.node_at c r) = false)
             (CanvasWidget.nodes c))
    by (intros m Hm; rewrite (Hold m Hm); reflexivity).
  rewrite (filter_ext_elem
             (fun r => Node.isinstance_TextNode (CanvasWidget.node_at c' r) = true)
             (fun r => Node.isinstance_TextNode (CanvasWidget.node_at c r) = true)
             (CanvasWidget.nodes c))
    by (intros m Hm; rewrite (Hold m Hm); reflexivity).
  rewrite !filter_cons, !filter_nil, Hnew.
  destruct (Node.isinstance_TextNode n); split; reflexivity.
Qed.

(** X10: in a reachable state, the Concept button (and a double click on
    the empty canvas) appends one concept node at (20, 20) named "Node k+1",
    where k counts the concept nodes of the document only; the Add Text Node
    button appends one text node named "Text k+1", where k counts the text
    nodes only.  The new node is unselected, on top for the hit test, and no
    other node and no arrow is changed. *)
Theorem add_buttons_number_by_kind (f : QFontMetrics.t) (c : CanvasWidget.t) :
  reachable f c ->
  let new := length (CanvasWidget.node_objs c) in
  (let c' := CanvasWidget.add_node 20 20 None c in
   CanvasWidget.nodes c' = CanvasWidget.nodes c ++ [new] /\
   (new ∉ CanvasWidget.nodes c) /\
   CanvasWidget.node_at c' new
   = Node.init ClsNode 20 20 ("Node " +:+ pretty (CanvasWidget.count_concepts c + 1)%nat)
       (CanvasWidget.node_font c) /\
   Node.selected (CanvasWidget.node_at c' new) = false /\
   (forall m, m ∈ CanvasWidget.nodes c -> CanvasWidget.node_at c' m = CanvasWidget.node_at c m) /\
   (forall pos, Node.contains (CanvasWidget.node_at c' new) pos = true ->
                CanvasWidget.hit_node c' pos = Some new) /\
   CanvasWidget.count_concepts c' = S (CanvasWidget.count_concepts c) /\
   CanvasWidget.count_texts c' = CanvasWidget.count_texts c /\
   CanvasWidget.arrows c' = CanvasWidget.arrows c /\
   CanvasWidget.arrow_objs c' = CanvasWidget.arrow_objs c) /\
  (let c' := CanvasWidget.add_text_node 20 20 None c in
   CanvasWidget.nodes c' = CanvasWidget.nodes c ++ [new] /\
   (new ∉ CanvasWidget.nodes c) /\
   CanvasWidget.node_at c' new
   = Node.init ClsTextNode 20 20 ("Text " +:+ pretty (CanvasWidget.count_texts c + 1)%nat)
       (CanvasWidget.node_font c) /\
   Node.selected (CanvasWidget.node_at c' new) = false /\
   (forall m, m ∈ CanvasWidget.nodes c -> CanvasWidget.node_at c' m = CanvasWidget.node_at c m) /\
   (forall pos, Node.contains (CanvasWidget.node_at c' new) pos = true ->
                CanvasWidget.hit_node c' pos = Some new) /\
   CanvasWidget.count_concepts c' = CanvasWidget.count_concepts c /\
   CanvasWidget.count_texts c' = S (CanvasWidget.count_texts c) /\
   CanvasWidget.arrows c' = CanvasWidget.arrows c /\
   CanvasWidget.arrow_objs c' = CanvasWidget.arrow_objs c) /\
  (forall p, CanvasWidget.hit_node c (CanvasWidget.scaled p (CanvasWidget._zoom c)) = None ->
     CanvasWidget.mouseDoubleClickEvent p c = CanvasWidget.add_node 20 20 None c).
Proof.
  intros Hr new. apply reachable_wf in Hr. split; [|split].
  - intros c'.
    set (n := Node.init ClsNode 20 20
                ("Node " +:+ pretty (CanvasWidget.count_concepts c + 1)%nat)
                (CanvasWidget.node_font c)).
    destruct (append_new_node_props n c Hr) as (H1 & H2 & H3 & H4 & H5 & H6).
    change (CanvasWidget.append_new_node n c) with c' in *. fold new in H1, H2, H4.
    assert (Hcl : Node.isinstance_TextNode n = false)
      by (unfold Node.isinstance_TextNode, n; rewrite init_class; reflexivity).
    rewrite Hcl in H5, H6.
    split; [reflexivity|]. split; [exact H1|]. split; [exact H2|].
    split; [rewrite H2; apply init_unselected|]. split; [exact H3|].
    split; [rewrite H2; exact H4|].
    split; [rewrite H5; lia|]. split; [rewrite H6; lia|]. split; reflexivity.
  - intros c'.
    set (n := Node.init ClsTextNode 20 20
                ("Text " +:+ pretty (CanvasWidget.count_texts c + 1)%nat)
                (CanvasWidget.node_font c)).
    destruct (append_new_node_props n c Hr) as (H1 & H2 & H3 & H4 & H5 & H6).
    change (CanvasWidget.append_new_node n c) with c' in *. fold new in H1, H2, H4.
    assert (Hcl : Node.isinstance_TextNode n = true)
      by (unfold Node.isinstance_TextNode, n; rewrite init_class; reflexivity).
    rewrite Hcl in H5, H6.
    split; [reflexivity|]. split; [exact H1|]. split; [exact H2|].
    split; [rewrite H2; apply init_unselected|]. split; [exact H3|].
    split; [rewrite H2; exact H4|].
    split; [rewrite H5; lia|]. split; [rewrite H6; lia|]. split; reflexivity.
  - intros p Hp. unfold CanvasWidget.mouseDoubleClickEvent. rewrite Hp. reflexivity.
Qed.

Lemma add_buttons_number_by_kind_witness :
  CanvasWidget.node_at (CanvasWidget.add_text_node 20 20 None proposition)
    (length (CanvasWidget.node_objs proposition))
  = Node.init ClsTextNode 20 20 ("Text " +:+ pretty (CanvasWidget.count_texts proposition + 1)%nat)
      (CanvasWidget.node_font proposition).
Proof.
  assert (H1 : reachable mono_font proposition)
    by (exists proposition_events; vm_compute; reflexivity).
  exact (proj1 (proj2 (proj2 (proj1 (proj2 (add_buttons_number_by_kind mono_font proposition H1)))))).
Defined.

(** ** Runs after which saving returns *)

Lemma run_attached (f : QFontMetrics.t) (evs : list event) (c0 c : CanvasWidget.t) :
  reachable f c0 -> attached c0 ->
  never_deletes_pending_source evs c0 ->
  run evs c0 = CanvasWidget.Returned c ->
  attached c.
Proof.
  revert c0. induction evs as [|ev evs IH]; intros c0 Hr Hatt Hnever Hrun; simpl in *.
  - inversion Hrun; subst. exact Hatt.
  - destruct Hnever as [Hdel Hrest].
    destruct (handle ev c0) as [c1|e c1] eqn:Hh; [|discriminate].
    apply (IH c1); [eapply reachable_step; eauto| |exact Hrest|exact Hrun].
    eapply attached_handle; eauto. apply reachable_wf in Hr. exact Hr.
Qed.

(** X11: after any run of events from the empty canvas in which the Delete
    button is never pressed while the selected node is the pending source of a
    link, every arrow joins two nodes of the document and [save_diagram]
    returns a value: no KeyError. *)
Theorem save_returns_after_run (f : QFontMetrics.t) (evs : list event) (c : CanvasWidget.t) :
  run evs (CanvasWidget.init f) = CanvasWidget.Returned c ->
  never_deletes_pending_source evs (CanvasWidget.init f) ->
  attached c /\ exists d, CanvasWidget.save_diagram c = CanvasWidget.Dumped d.
Proof.
  intros Hrun Hnever.
  assert (Hatt : attached c).
  { apply (run_attached f evs (CanvasWidget.init f)); auto.
    - exists []. reflexivity.
    - split; [|discriminate]. intros a Ha. apply elem_of_nil in Ha. contradiction. }
  split; [exact Hatt|]. apply save_diagram_returns. exact (proj1 Hatt).
Qed.

Lemma save_returns_after_run_witness :
  attached proposition /\
  exists d, CanvasWidget.save_diagram proposition = CanvasWidget.Dumped d.
Proof.
  apply (save_returns_after_run mono_font proposition_events proposition).
  - vm_compute. reflexivity.
  - vm_compute. repeat split; intros H; discriminate H.
Defined.

(** ** The selection is not part of the document *)





